(** * h5utils: project paths and HDF5 helpers

    A shallow embedding of [h5utils/project_path.py] and
    [h5utils/h5_interfaces.py], with the properties their specification
    states.  The Python functions are translated one to one; the calls they
    make into [os], [os.path], GitPython and h5py are modelled by the
    executable definitions of the modules [Posix], [Kernel] and [H5py]. *)

From Stdlib Require Import ZArith Lia Ascii String.
From stdpp Require Import gmap strings list fin_maps.

Local Open Scope string_scope.
Local Open Scope list_scope.
Local Open Scope nat_scope.

(** ** Exceptions and results *)

(** The [errno] values the modelled system calls fail with.  Python turns
    [ENOENT] into [FileNotFoundError], [EEXIST] into [FileExistsError] and
    [ENOTDIR] into [NotADirectoryError], all subclasses of [OSError].
    [ENONE] is for an [OSError] that carries no [errno], as h5py raises for
    an error of the HDF5 library. *)
Inductive errno := ENOENT | EEXIST | ENOTDIR | EACCES | EINVAL | ENONE.

Inductive exn :=
| FileNotFoundError (msg : string)   (* raised by the program itself *)
| OSError (e : errno)                (* raised by a system call *)
| InvalidGitRepositoryError
| NoSuchPathError
| GitCommandError
| RecursionError
| KeyError (key : string)
| TypeError
| ValueError
| AttributeError
| UnicodeDecodeError.

Inductive result (A : Type) :=
| Ret (a : A)
| Raise (e : exn).
Arguments Ret {A} a.
Arguments Raise {A} e.

#[global] Instance errno_eq_dec : EqDecision errno.
Proof. solve_decision. Defined.
#[global] Instance exn_eq_dec : EqDecision exn.
Proof. solve_decision. Defined.

(** [except FileExistsError]. *)
Definition is_FileExistsError (e : exn) : bool :=
  match e with OSError EEXIST => true | _ => false end.

(** ** [posixpath]: pure functions on path strings *)
Module Posix.

Definition sep : ascii := "/"%char.
Definition curdir : string := ".".
Definition pardir : string := "..".

Definition is_sep (c : ascii) : bool := Ascii.eqb c sep.

(** [bool(s)] for a string. *)
Definition nonempty (s : string) : bool :=
  match s with EmptyString => false | String _ _ => true end.

(** [p.rfind(sep) + 1]: the index just after the last separator, 0 when
    there is none. *)
Fixpoint rfind_sep_succ (p : string) : nat :=
  match p with
  | EmptyString => 0
  | String c r =>
      match rfind_sep_succ r with
      | 0 => if is_sep c then 1 else 0
      | S k => S (S k)
      end
  end.

(** [p[:i]] and [p[i:]]. *)
Fixpoint take (i : nat) (p : string) : string :=
  match i, p with
  | S k, String c r => String c (take k r)
  | _, _ => EmptyString
  end.

Fixpoint drop (i : nat) (p : string) : string :=
  match i, p with
  | S k, String _ r => drop k r
  | _, _ => p
  end.

(** [s == sep * len(s)]. *)
Fixpoint all_sep (s : string) : bool :=
  match s with
  | EmptyString => true
  | String c r => is_sep c && all_sep r
  end.

(** [s.rstrip(sep)]. *)
Fixpoint rstrip (s : string) : string :=
  match s with
  | EmptyString => EmptyString
  | String c r =>
      match rstrip r with
      | EmptyString => if is_sep c then EmptyString else String c EmptyString
      | r' => String c r'
      end
  end.

Definition startswith_sep (s : string) : bool :=
  match s with String c _ => is_sep c | EmptyString => false end.

Fixpoint endswith_sep (s : string) : bool :=
  match s with
  | EmptyString => false
  | String c EmptyString => is_sep c
  | String _ r => endswith_sep r
  end.

(** [posixpath.split]. *)
Definition split (p : string) : string * string :=
  let i := rfind_sep_succ p in
  let head := take i p in
  let tail := drop i p in
  let head := if nonempty head && negb (all_sep head) then rstrip head else head in
  (head, tail).

(** [posixpath.dirname]. *)
Definition dirname (p : string) : string :=
  let i := rfind_sep_succ p in
  let head := take i p in
  if nonempty head && negb (all_sep head) then rstrip head else head.

(** One round of the loop of [posixpath.join]. *)
Definition join_step (path b : string) : string :=
  if startswith_sep b then b
  else if negb (nonempty path) || endswith_sep path then path +:+ b
  else path +:+ String sep b.

(** [posixpath.join(a, *p)]. *)
Definition join (a : string) (p : list string) : string :=
  foldl join_step a p.

(** The components of a path, as the kernel sees them: the pieces between
    separators, empty pieces included. *)
Fixpoint components (p : string) : list string :=
  match p with
  | EmptyString => [EmptyString]
  | String c r =>
      if is_sep c then EmptyString :: components r
      else match components r with
           | x :: xs => String c x :: xs
           | [] => [String c EmptyString]
           end
  end.

End Posix.

(** ** The file system, as the system calls of [os] see it *)
Module Kernel.

Inductive kind := File | Dir.

#[global] Instance kind_eq_dec : EqDecision kind.
Proof. solve_decision. Defined.

(** A file system is a finite map from canonical absolute paths (the list
    of names from the root, the root being the empty list) to the kind of
    the entry there, with the working directory of the process.  There are
    no symbolic links. *)
Record world := World {
  nodes : gmap (list string) kind;
  cwd : string
}.

(** Path resolution from directory [cur], one component at a time: an
    empty component and [.] stay, [..] moves to the parent (the root is its
    own parent), a name moves to the entry of that name.  Only the last
    component may be something else than a directory. *)
Fixpoint walk (nd : gmap (list string) kind) (cur : list string)
    (comps : list string) : result (list string * kind) :=
  match comps with
  | [] => Ret (cur, Dir)
  | c :: rest =>
      if bool_decide (c = "") || bool_decide (c = Posix.curdir) then walk nd cur rest
      else if bool_decide (c = Posix.pardir) then walk nd (removelast cur) rest
      else match nd !! (cur ++ [c]) with
           | None => Raise (OSError ENOENT)
           | Some Dir => walk nd (cur ++ [c]) rest
           | Some File =>
               match rest with
               | [] => Ret (cur ++ [c], File)
               | _ => Raise (OSError ENOTDIR)
               end
           end
  end.

(** Where the resolution of [p] starts: the root for an absolute path,
    the working directory otherwise. *)
Definition start (w : world) (p : string) : result (list string) :=
  if Posix.startswith_sep p then Ret []
  else match walk (nodes w) [] (Posix.components (cwd w)) with
       | Ret (d, Dir) => Ret d
       | Ret (_, File) => Raise (OSError ENOTDIR)
       | Raise e => Raise e
       end.

(** [os.stat(p)], reduced to the canonical path and the kind of the
    entry. *)
Definition stat (w : world) (p : string) : result (list string * kind) :=
  if negb (Posix.nonempty p) then Raise (OSError ENOENT)
  else match start w p with
       | Raise e => Raise e
       | Ret d => walk (nodes w) d (Posix.components p)
       end.

(** [os.path.exists(p)]: [os.stat] did not raise. *)
Definition exists_ (w : world) (p : string) : bool :=
  match stat w p with Ret _ => true | Raise _ => false end.

Definition isdir (w : world) (p : string) : bool :=
  match stat w p with Ret (_, Dir) => true | _ => false end.

(** The name of [k] inside directory [d], when [k] is an entry of [d]. *)
Fixpoint child_of (d k : list string) : option string :=
  match d, k with
  | [], [n] => Some n
  | x :: d', y :: k' => if bool_decide (x = y) then child_of d' k' else None
  | _, _ => None
  end.

Definition entries (nd : gmap (list string) kind) (d : list string) : list string :=
  omap (fun kv => child_of d kv.1) (map_to_list nd).

(** [os.listdir(p)]. *)
Definition listdir (w : world) (p : string) : result (list string) :=
  match stat w p with
  | Raise e => Raise e
  | Ret (_, File) => Raise (OSError ENOTDIR)
  | Ret (d, Dir) => Ret (entries (nodes w) d)
  end.

(** The components without the empty ones at the end (trailing
    separators). *)
Fixpoint strip_trailing (l : list string) : list string :=
  match l with
  | [] => []
  | c :: r =>
      match strip_trailing r with
      | [] => if bool_decide (c = "") then [] else [c]
      | r' => c :: r'
      end
  end.

(** A non-empty list as its front and its last element. *)
Fixpoint unsnoc (l : list string) : option (list string * string) :=
  match l with
  | [] => None
  | [x] => Some ([], x)
  | x :: r =>
      match unsnoc r with
      | Some (i, y) => Some (x :: i, y)
      | None => None
      end
  end.

(** [os.mkdir(p)]: the parent must resolve to a directory and the last
    name must be free there. *)
Definition mkdir (p : string) (w : world) : world * result unit :=
  if negb (Posix.nonempty p) then (w, Raise (OSError ENOENT))
  else match start w p with
  | Raise e => (w, Raise e)
  | Ret d0 =>
      match unsnoc (strip_trailing (Posix.components p)) with
      | None => (w, Raise (OSError EEXIST))
      | Some (parent, name) =>
          match walk (nodes w) d0 parent with
          | Raise e => (w, Raise e)
          | Ret (_, File) => (w, Raise (OSError ENOTDIR))
          | Ret (d, Dir) =>
              if bool_decide (name = Posix.curdir) || bool_decide (name = Posix.pardir)
              then (w, Raise (OSError EEXIST))
              else match nodes w !! (d ++ [name]) with
                   | Some _ => (w, Raise (OSError EEXIST))
                   | None =>
                       (World (<[d ++ [name] := Dir]> (nodes w)) (cwd w), Ret tt)
                   end
          end
      end
  end.

(** The first lines of [os.makedirs]: [head, tail = path.split(name)],
    and once more on [head] when [tail] is empty. *)
Definition split_name (name : string) : string * string :=
  let '(head, tail) := Posix.split name in
  if negb (Posix.nonempty tail) then Posix.split head else (head, tail).

(** [os.makedirs(name)] of the Python library, [exist_ok] left at
    [False].  The recursion is on the head of the path, which is shorter
    than the path; [fuel] bounds its depth. *)
Fixpoint makedirs_rec (fuel : nat) (name : string) (w : world) : world * result unit :=
  match fuel with
  | 0 => (w, Raise RecursionError)
  | S fuel' =>
      let '(head, tail) := split_name name in
      if Posix.nonempty head && Posix.nonempty tail && negb (exists_ w head) then
        let '(w1, r) := makedirs_rec fuel' head w in
        match r with
        | Raise e =>
            if is_FileExistsError e then
              if bool_decide (tail = Posix.curdir) then (w1, Ret tt) else mkdir name w1
            else (w1, Raise e)
        | Ret _ =>
            if bool_decide (tail = Posix.curdir) then (w1, Ret tt) else mkdir name w1
        end
      else mkdir name w
  end.

Definition makedirs (name : string) (w : world) : world * result unit :=
  makedirs_rec (S (String.length name)) name w.

End Kernel.

(** ** [h5utils/project_path.py] *)
Module ProjectPath.
Import Kernel.

Definition default_marker : string := "setup.cfg".

Definition not_found_msg (marker : string) : string :=
  "Could not find the project root. No " +:+ marker +:+
  " found in any parent directories.".

(** The [while] loop of [find_project_root]; [None] when [fuel] rounds
    were not enough. *)
Fixpoint find_loop (fuel : nat) (marker : string) (w : world)
    (current_dir : string) : option (result string) :=
  match fuel with
  | 0 => None
  | S fuel' =>
      if bool_decide (current_dir ≠ Posix.dirname current_dir) then
        match listdir w current_dir with
        | Raise e => Some (Raise e)
        | Ret names =>
            if bool_decide (marker ∈ names) then Some (Ret current_dir)
            else find_loop fuel' marker w (Posix.dirname current_dir)
        end
      else Some (Raise (FileNotFoundError (not_found_msg marker)))
  end.

(** [find_project_root(marker)].  Every round of the loop shortens
    [current_dir], so its length bounds the number of rounds. *)
Definition find_project_root (marker : string) (w : world) : result string :=
  let current_dir := cwd w in
  match find_loop (S (String.length current_dir)) marker w current_dir with
  | Some r => r
  | None => Raise RecursionError
  end.

(** The directories the loop of [find_project_root] lists when it starts
    from [d]: [d] and its parents, the root of the file system (the
    directory that is its own [dirname]) left out. *)
Fixpoint below_root (fuel : nat) (d : string) : list string :=
  match fuel with
  | 0 => []
  | S fuel' =>
      if bool_decide (d ≠ Posix.dirname d) then d :: below_root fuel' (Posix.dirname d)
      else []
  end.

(** The root of the file system above [d]. *)
Fixpoint root_above (fuel : nat) (d : string) : string :=
  match fuel with
  | 0 => d
  | S fuel' =>
      if bool_decide (d ≠ Posix.dirname d) then root_above fuel' (Posix.dirname d)
      else d
  end.

(** The directories the walk from [d] lists: more rounds than [d] has
    characters are never needed. *)
Definition walked (d : string) : list string :=
  below_root (S (String.length d)) d.

(** All the ancestors of [d], nearest first: [d] itself, its parents, and
    the root last. *)
Definition ancestors (d : string) : list string :=
  walked d ++ [root_above (S (String.length d)) d].

(** Directory [d] can be listed and has an entry called [marker]. *)
Definition contains (w : world) (d marker : string) : Prop :=
  ∃ names, listdir w d = Ret names ∧ marker ∈ names.

(** Directory [d] can be listed and has no entry called [marker]. *)
Definition lacks (w : world) (d marker : string) : Prop :=
  ∃ names, listdir w d = Ret names ∧ marker ∉ names.

(** The loop as a scan of a list of directories. *)
Fixpoint scan (marker : string) (w : world) (dirs : list string) : result string :=
  match dirs with
  | [] => Raise (FileNotFoundError (not_found_msg marker))
  | d :: rest =>
      match listdir w d with
      | Raise e => Raise e
      | Ret names =>
          if bool_decide (marker ∈ names) then Ret d else scan marker w rest
      end
  end.

Section Git.
(** GitPython: [git.Repo(os.getcwd(), search_parent_directories=True)]
    followed by [git_repo.git.rev_parse('--show-toplevel')], as one
    query of the version control system. *)
Variable git_toplevel : world -> result string.

(** [gitdir()]. *)
Definition gitdir (w : world) : result string :=
  match git_toplevel w with
  | Ret git_root => Ret git_root
  | Raise InvalidGitRepositoryError => find_project_root default_marker w
  | Raise NoSuchPathError => find_project_root default_marker w
  | Raise e => Raise e
  end.

(** [datadir(path, mkdir=True)]. *)
Definition datadir (path : string) (mkdir : bool) (w : world) : world * result string :=
  match gitdir w with
  | Raise e => (w, Raise e)
  | Ret root =>
      let path := Posix.join root ["data/"; path] in
      if negb (exists_ w path) && mkdir then
        let '(w', r) := makedirs path w in
        match r with
        | Raise e => (w', Raise e)
        | Ret _ => (w', Ret path)
        end
      else (w, Ret path)
  end.

(** [plotsdir(path, mkdir=True)]. *)
Definition plotsdir (path : string) (mkdir : bool) (w : world) : world * result string :=
  match gitdir w with
  | Raise e => (w, Raise e)
  | Ret root =>
      let path := Posix.join root ["plots/"; path] in
      if negb (exists_ w path) && mkdir then
        let '(w', r) := makedirs path w in
        match r with
        | Raise e => (w', Raise e)
        | Ret _ => (w', Ret path)
        end
      else (w, Ret path)
  end.

(** The two functions differ in the name of the directory only; this is
    their common form, [resource_dir(category, name, create)] in the
    specification. *)
Definition resource_dir (category path : string) (mkdir : bool) (w : world)
    : world * result string :=
  match gitdir w with
  | Raise e => (w, Raise e)
  | Ret root =>
      let path := Posix.join root [category; path] in
      if negb (exists_ w path) && mkdir then
        let '(w', r) := makedirs path w in
        match r with
        | Raise e => (w', Raise e)
        | Ret _ => (w', Ret path)
        end
      else (w, Ret path)
  end.
End Git.

End ProjectPath.

(** ** h5py and NumPy, as far as [h5_interfaces.py] uses them *)
Module H5py.

(** Element types of arrays. *)
Inductive dtype :=
| Float32
| Float64
| Int64
| Bytes (itemsize : nat)      (* NumPy ['S'] *)
| Unicode (itemsize : nat).   (* NumPy ['U'] *)

#[global] Instance dtype_eq_dec : EqDecision dtype.
Proof. solve_decision. Defined.

(** One element: the bit pattern of a number, or a byte string. *)
Inductive scalar :=
| Num (bits : Z)
| Str (bytes : string).

#[global] Instance scalar_eq_dec : EqDecision scalar.
Proof. solve_decision. Defined.

(** [numpy.ndarray]: element type, shape, and the elements in row-major
    order. *)
Record ndarray := NdArray {
  a_dtype : dtype;
  a_shape : list nat;
  a_items : list scalar
}.

Definition product (shape : list nat) : nat := foldr Nat.mul 1 shape.

(** [ndarray.size]. *)
Definition size (a : ndarray) : nat := product (a_shape a).

(** An array holds as many elements as its shape says. *)
Definition wf_array (a : ndarray) : Prop :=
  length (a_items a) = product (a_shape a).

(** What the module takes from outside: the type conversion of the HDF5
    library between two different element types ([None] when it has no
    conversion path), [numpy.can_cast] between two different element
    types, and [bytes.decode('utf-8')] ([None] for bytes that are not
    UTF-8). *)
Class External := {
  convert : dtype -> dtype -> option (scalar -> scalar);
  can_cast : dtype -> dtype -> bool;
  utf8_decode : string -> option string
}.

(** A dataset: fixed shape, chunk shape and element type, the elements,
    and the attributes by name. *)
Record dataset := DatasetOf {
  ds_shape : list nat;
  ds_chunks : option (list nat);
  ds_dtype : dtype;
  ds_data : list scalar;
  ds_attrs : list (string * ndarray)
}.

(** The members of a group, by link name, in iteration order, which in
    the files this code makes is the order of the names.  A name is the name
    of a member of the group it is looked up in; path names through several
    groups are not resolved (see [plain_name]). *)
#[warnings="-register-all"]
Inductive item :=
| Group (members : list (string * item))
| Dataset (d : dataset).

(** What is at a path of the disk: an HDF5 file with the members of its
    root group, or something else (a directory, a file of another
    format). *)
Inductive entry :=
| H5File (root : list (string * item))
| OtherFile.

(** The disk: what exists, by path, and where a new file can be
    created (its directory exists and can be written). *)
Record disk := Disk {
  files : gmap string entry;
  creatable : string -> bool
}.

(** A name that h5py takes for the name of one member of the group it is
    used in: not empty, not [.], and without [/].  A name with [/] is a
    path through groups ([g/x] is the member [x] of the member [g]), and the
    lookups and updates below do not follow paths: what they say holds for
    plain names. *)
Fixpoint has_slash (s : string) : bool :=
  match s with
  | EmptyString => false
  | String c r => Ascii.eqb c "/" || has_slash r
  end.

Definition plain_name (name : string) : bool :=
  negb (bool_decide (name = "")) && negb (bool_decide (name = "."))
  && negb (has_slash name).

(** Lookup in a list of named things. *)
Fixpoint assoc {A} (k : string) (l : list (string * A)) : option A :=
  match l with
  | [] => None
  | (k', v) :: r => if bool_decide (k = k') then Some v else assoc k r
  end.

(** The value under a name that is there is replaced where it is. *)
Fixpoint replace_named {A} (k : string) (v : A) (l : list (string * A))
    : list (string * A) :=
  match l with
  | [] => []
  | (k', v') :: r =>
      if bool_decide (k = k') then (k, v) :: r else (k', v') :: replace_named k v r
  end.

(** A new name takes its place by name, in front of the first name that
    is larger (byte by byte, as [strcmp] has it): HDF5 lists the links of a
    group and the attributes of an object in the order of their names. *)
Fixpoint insert_by_name {A} (k : string) (v : A) (l : list (string * A))
    : list (string * A) :=
  match l with
  | [] => [(k, v)]
  | (k', v') :: r =>
      if String.ltb k k' then (k, v) :: (k', v') :: r
      else (k', v') :: insert_by_name k v r
  end.

(** Update of a list of named things. *)
Definition assoc_set {A} (k : string) (v : A) (l : list (string * A))
    : list (string * A) :=
  match assoc k l with
  | Some _ => replace_named k v l
  | None => insert_by_name k v l
  end.

(** [os.path.exists(file_path)]. *)
Definition exists_ (d : disk) (file_path : string) : bool :=
  bool_decide (is_Some (files d !! file_path)).

Definition set_root (file_path : string) (root : list (string * item)) (d : disk) : disk :=
  Disk (<[file_path := H5File root]> (files d)) (creatable d).

(** [h5py.File(file_path, 'a')]: read/write if the file exists, create
    otherwise. *)
Definition open_append (file_path : string) (d : disk)
    : disk * result (list (string * item)) :=
  match files d !! file_path with
  | Some (H5File root) => (d, Ret root)
  | Some OtherFile => (d, Raise (OSError EINVAL))
  | None =>
      if creatable d file_path then (set_root file_path [] d, Ret [])
      else (d, Raise (OSError ENOENT))
  end.

(** [h5py.File(file_path, 'r+')] and [h5py.File(file_path, 'r')]: the
    file must exist. *)
Definition open_existing (file_path : string) (d : disk)
    : result (list (string * item)) :=
  match files d !! file_path with
  | Some (H5File root) => Ret root
  | Some OtherFile => Raise (OSError EINVAL)
  | None => Raise (OSError ENOENT)
  end.

(** A chunk shape that h5py accepts for a new dataset: no chunks for a
    scalar dataset, as many chunk dimensions as the shape has, each
    positive and at most the dimension. *)
Definition check_chunks (shape chunks : list nat) : result unit :=
  match shape with
  | [] => Raise TypeError
  | _ =>
      if negb (length chunks =? length shape) then Raise ValueError
      else if forallb (fun p => (0 <? p.2) && (p.2 <=? p.1)) (zip shape chunks)
           then Ret tt
           else Raise ValueError
  end.

(** The new dataset of [create_dataset]: filled with zeros, no
    attributes. *)
Definition new_dataset (shape chunks : list nat) (dt : dtype) : dataset :=
  DatasetOf shape (Some chunks) dt (replicate (product shape) (Num 0)) [].

Section WithExternal.
Context `{External}.

(** [numpy.can_cast(src, dst)]: every type casts to itself. *)
Definition safe_cast (src dst : dtype) : bool :=
  bool_decide (src = dst) || can_cast src dst.

(** The conversion the HDF5 library applies on a write: none between
    equal types. *)
Definition conversion (src dst : dtype) : option (scalar -> scalar) :=
  if bool_decide (src = dst) then Some id else convert src dst.

(** [file.require_dataset(name, shape=shape, chunks=chunks,
    dtype=dtype)]: create the dataset if the name is free, else check
    that what is there is a dataset of that shape whose type the
    requested one casts to, and leave it as it is. *)
Definition require_dataset (name : string) (shape chunks : list nat) (dt : dtype)
    (root : list (string * item)) : result (list (string * item)) :=
  match assoc name root with
  | None =>
      match check_chunks shape chunks with
      | Raise e => Raise e
      | Ret _ => Ret (assoc_set name (Dataset (new_dataset shape chunks dt)) root)
      end
  | Some (Group _) => Raise TypeError
  | Some (Dataset ds) =>
      if negb (bool_decide (shape = ds_shape ds)) then Raise TypeError
      else if negb (safe_cast dt (ds_dtype ds)) then Raise TypeError
      else Ret root
  end.

(** [Selection.expand_shape] of h5py, on reversed shapes: the
    dimensions of the array are matched with those of the dataset from
    the last one on; each is 1 or the dimension of the dataset; what the
    array has more in front must not exceed 1. *)
Fixpoint expand_rev (count source : list nat) : option (list nat) :=
  match count with
  | [] => if forallb (fun n => n <=? 1) source then Some [] else None
  | c :: count' =>
      match source with
      | [] => cons 1 <$> expand_rev count' []
      | t :: source' =>
          if (t =? 1) || (c =? t) then cons t <$> expand_rev count' source'
          else None
      end
  end.

Definition expand_shape (count source : list nat) : option (list nat) :=
  reverse <$> expand_rev (reverse count) (reverse source).

(** [k] consecutive blocks of [n] elements. *)
Fixpoint blocks {A} (n k : nat) (l : list A) : list (list A) :=
  match k with
  | 0 => []
  | S k' => take n l :: blocks n k' (drop n l)
  end.

(** [Selection.broadcast]: the elements of an array of shape [eshape],
    repeated along the axes where [eshape] has 1, fill the shape
    [count]. *)
Fixpoint broadcast {A} (count eshape : list nat) (items : list A) : list A :=
  match count, eshape with
  | c :: count', e :: eshape' =>
      if e =? c then
        concat (broadcast count' eshape' <$> blocks (product eshape') e items)
      else concat (replicate c (broadcast count' eshape' items))
  | _, _ => items
  end.

(** [dataset[...] = val]: the array is broadcast to the shape of the
    dataset, which h5py refuses with [TypeError] when the shapes do not
    fit, and converted to its type by the HDF5 library, whose error for
    two types without a conversion is an [OSError]. *)
Definition write_all (ds : dataset) (val : ndarray) : result dataset :=
  match expand_shape (ds_shape ds) (a_shape val) with
  | None => Raise TypeError
  | Some eshape =>
      if negb (length (a_items val) =? product eshape) then Raise TypeError
      else match conversion (a_dtype val) (ds_dtype ds) with
           | None => Raise (OSError ENONE)
           | Some f =>
               Ret (DatasetOf (ds_shape ds) (ds_chunks ds) (ds_dtype ds)
                      (broadcast (ds_shape ds) eshape (f <$> a_items val))
                      (ds_attrs ds))
           end
  end.

(** Element types an attribute can have: h5py has no conversion for
    NumPy's ['U']. *)
Definition storable (dt : dtype) : bool :=
  match dt with Unicode _ => false | _ => true end.

(** [dataset.attrs[name] = val]. *)
Definition attrs_set (name : string) (val : ndarray) (ds : dataset) : result dataset :=
  if storable (a_dtype val) then
    Ret (DatasetOf (ds_shape ds) (ds_chunks ds) (ds_dtype ds) (ds_data ds)
           (assoc_set name val (ds_attrs ds)))
  else Raise TypeError.

(** [dataset[...]]. *)
Definition read_all (ds : dataset) : ndarray :=
  NdArray (ds_dtype ds) (ds_shape ds) (ds_data ds).

(** [h5py.File(file_path, 'r')[name][...]]. *)
Definition read_dataset (file_path name : string) (d : disk) : result ndarray :=
  match open_existing file_path d with
  | Raise e => Raise e
  | Ret root =>
      match assoc name root with
      | None => Raise (KeyError name)
      | Some (Group _) => Raise TypeError
      | Some (Dataset ds) => Ret (read_all ds)
      end
  end.

(** [h5py.File(file_path, 'r')[name].attrs[attr]]. *)
Definition read_attr (file_path name attr : string) (d : disk) : result ndarray :=
  match open_existing file_path d with
  | Raise e => Raise e
  | Ret root =>
      match assoc name root with
      | None => Raise (KeyError name)
      | Some (Group _) => Raise TypeError
      | Some (Dataset ds) =>
          match assoc attr (ds_attrs ds) with
          | None => Raise (KeyError attr)
          | Some v => Ret v
          end
      end
  end.

(** [label.decode('utf-8')] for one element of an array. *)
Definition decode (x : scalar) : result string :=
  match x with
  | Str b =>
      match utf8_decode b with
      | Some s => Ret s
      | None => Raise UnicodeDecodeError
      end
  | Num _ => Raise AttributeError
  end.

Fixpoint decode_list (l : list scalar) : result (list string) :=
  match l with
  | [] => Ret []
  | x :: r =>
      match decode x with
      | Raise e => Raise e
      | Ret s =>
          match decode_list r with
          | Raise e => Raise e
          | Ret ss => Ret (s :: ss)
          end
      end
  end.

(** [[label.decode('utf-8') for label in attr_value]]: a
    zero-dimensional array cannot be iterated, the elements of a
    one-dimensional array are its items, those of an array with more
    dimensions are arrays, which have no [decode]. *)
Definition decode_values (v : ndarray) : result (list string) :=
  match a_shape v with
  | [] => Raise TypeError
  | [_] => decode_list (a_items v)
  | 0 :: _ => Ret []
  | _ => Raise AttributeError
  end.

End WithExternal.

End H5py.

(** ** [h5utils/h5_interfaces.py] *)
Module H5Interfaces.
Import H5py.

Section WithExternal.
Context `{External}.

(** [setup_hdf5_file(file_path, dataset_name, shape)]. *)
Definition setup_hdf5_file (file_path dataset_name : string) (shape : list nat)
    (d : disk) : disk * result unit :=
  let '(d1, r) := open_append file_path d in
  match r with
  | Raise e => (d1, Raise e)
  | Ret file =>
      match require_dataset dataset_name shape (1 :: tail shape) Float32 file with
      | Raise e => (d1, Raise e)
      | Ret file' => (set_root file_path file' d1, Ret tt)
      end
  end.

(** [write_data_and_label(file_path, dataset_name, data_array,
    label_array)]. *)
Definition write_data_and_label (file_path dataset_name : string)
    (data_array label_array : ndarray) (d : disk) : disk * result unit :=
  let '(d1, r) :=
    if negb (exists_ d file_path)
    then setup_hdf5_file file_path dataset_name (a_shape data_array) d
    else (d, Ret tt) in
  match r with
  | Raise e => (d1, Raise e)
  | Ret _ =>
      match open_existing file_path d1 with
      | Raise e => (d1, Raise e)
      | Ret file =>
          match assoc dataset_name file with
          | None => (d1, Raise (KeyError dataset_name))
          | Some (Group _) => (d1, Raise TypeError)
          | Some (Dataset dataset) =>
              match write_all dataset data_array with
              | Raise e => (d1, Raise e)
              | Ret dataset1 =>
                  match attrs_set "label" label_array dataset1 with
                  | Raise e =>
                      (set_root file_path
                         (assoc_set dataset_name (Dataset dataset1) file) d1,
                       Raise e)
                  | Ret dataset2 =>
                      (set_root file_path
                         (assoc_set dataset_name (Dataset dataset2) file) d1,
                       Ret tt)
                  end
              end
          end
      end
  end.


(** One line of the report of [print_hdf5_structure].  [indent] is the
    number of spaces in front; the lines of a dataset and of an
    attribute have four more. *)
Inductive line :=
| LTitle                                   (* HDF5 File Structure: *)
| LGroup (indent : nat) (name : string)    (* group: {name}/ *)
| LDatasetTag (indent : nat)               (* dataset: *)
| LDataset (indent : nat) (name : string) (shape : list nat) (dt : dtype)
                                           (* {name} (shape: .., dtype: ..) *)
| LAttrTag (indent : nat)                  (* attributes: *)
| LAttr (indent : nat) (name : string) (shape : list nat) (dt : dtype)
                                           (* {attr_name}: (shape=.., dtype=..) *)
| LValues (indent : nat) (values : list string).
                                           (* values: [..] *)

(** The loop over [item.attrs.items()]. *)
Fixpoint print_attrs (indent : nat) (attrs : list (string * ndarray))
    : list line * result unit :=
  match attrs with
  | [] => ([], Ret tt)
  | (attr_name, attr_value) :: rest =>
      let header :=
        LAttr (indent + 4) attr_name (a_shape attr_value) (a_dtype attr_value) in
      if size attr_value <? 10 then
        match decode_values attr_value with
        | Raise e => ([header], Raise e)
        | Ret values =>
            let '(out, r) := print_attrs indent rest in
            (header :: LValues (indent + 4) values :: out, r)
        end
      else
        let '(out, r) := print_attrs indent rest in
        (header :: out, r)
  end.

(** The branch of [print_hdf5_structure] for a dataset. *)
Definition print_dataset (indent : nat) (name : string) (ds : dataset)
    : list line * result unit :=
  let head :=
    [LDatasetTag indent; LDataset (indent + 4) name (ds_shape ds) (ds_dtype ds)] in
  if 0 <? length (ds_attrs ds) then
    let '(out, r) := print_attrs indent (ds_attrs ds) in
    (head ++ LAttrTag indent :: out, r)
  else (head, Ret tt).

(** One round of the loop over [group.items()]: a subgroup is
    announced and printed by the recursive call [print_group], with two
    more spaces; a dataset is printed with its attributes. *)
Definition print_item (print_group : item -> nat -> list line * result unit)
    (indent : nat) (name : string) (it : item) : list line * result unit :=
  match it with
  | Group _ =>
      let '(out, r) := print_group it (indent + 2) in
      (LGroup indent name :: out, r)
  | Dataset ds => print_dataset indent name ds
  end.

(** The loop over [group.items()]. *)
Fixpoint print_items (print_group : item -> nat -> list line * result unit)
    (indent : nat) (members : list (string * item)) : list line * result unit :=
  match members with
  | [] => ([], Ret tt)
  | (name, it) :: rest =>
      let '(out1, r1) := print_item print_group indent name it in
      match r1 with
      | Raise e => (out1, Raise e)
      | Ret _ =>
          let '(out2, r2) := print_items print_group indent rest in
          (out1 ++ out2, r2)
      end
  end.

(** [print_hdf5_structure(group, indent)]: the lines printed, and how
    the call ends.  Something that is no group has no [items()]. *)
Fixpoint print_hdf5_structure (group : item) (indent : nat) {struct group}
    : list line * result unit :=
  match group with
  | Dataset _ => ([LTitle], Raise AttributeError)
  | Group members =>
      let '(out, r) := print_items print_hdf5_structure indent members in
      (LTitle :: out, r)
  end.

(** Dataset [ds] is printed with indentation [k] when [group] is printed
    with indentation [indent]: it is a member of the group, or of a
    group below, each level adding two spaces. *)
Inductive printed_dataset : item -> nat -> dataset -> nat -> Prop :=
| printed_here members indent name ds :
    (name, Dataset ds) ∈ members ->
    printed_dataset (Group members) indent ds indent
| printed_below members indent name sub ds k :
    (name, Group sub) ∈ members ->
    printed_dataset (Group sub) (indent + 2) ds k ->
    printed_dataset (Group members) indent ds k.

(** A report, or the rest of one, that does not begin with a line of
    values. *)
Definition no_values_first (out : list line) : Prop :=
  ∀ k values, head out ≠ Some (LValues k values).


(** What the printer expects of an attribute: when it has fewer than 10
    elements, they can be iterated and decoded (a one-dimensional array of
    byte strings in UTF-8). *)
Definition decodable (v : ndarray) : Prop :=
  size v < 10 -> ∃ values, decode_values v = Ret values.

(** All the attributes of all the datasets of a group, at any depth, are
    as the printer expects them. *)
#[warnings="-register-all"]
Inductive all_decodable : item -> Prop :=
| decodable_dataset ds :
    Forall (fun nv => decodable nv.2) (ds_attrs ds) -> all_decodable (Dataset ds)
| decodable_group members :
    Forall (fun m => all_decodable m.2) members -> all_decodable (Group members).

End WithExternal.

End H5Interfaces.

(** ** Example file systems *)

Import H5py H5Interfaces Kernel ProjectPath.

(** A project whose marker sits in the root directory of the file system,
    with the working directory one level below. *)
Definition world_marker_in_root : world :=
  World (list_to_map [(["a"], Dir); (["setup.cfg"], File)]) "/a".

(** A project without a marker file. *)
Definition world_no_marker : world :=
  World (list_to_map [(["proj"], Dir); (["proj"; "src"], Dir)]) "/proj/src".

(** A project directory with its marker file and a [data] directory, the
    working directory being [data]. *)
Definition world_in_data : world :=
  World (list_to_map
           [(["proj"], Dir); (["proj"; "setup.cfg"], File); (["proj"; "data"], Dir)])
        "/proj/data".

(** No repository anywhere. *)
Definition no_repository (w : world) : result string :=
  Raise InvalidGitRepositoryError.

(** A fresh project: the marker file and nothing else. *)
Definition world_fresh_project : world :=
  World (list_to_map [(["proj"], Dir); (["proj"; "setup.cfg"], File)]) "/proj".

(** A project whose marker is a directory, with the working directory
    one level below the root of the project. *)
Definition world_marker_directory : world :=
  World (list_to_map
           [(["proj"], Dir); (["proj"; "setup.cfg"], Dir); (["proj"; "src"], Dir)])
        "/proj/src".

(** A project with a regular file [f] in its data directory. *)
Definition world_file_in_data : world :=
  World (list_to_map
           [(["proj"], Dir); (["proj"; "setup.cfg"], File); (["proj"; "data"], Dir);
            (["proj"; "data"; "f"], File)])
        "/proj".

(** ** Example disks *)

Fixpoint is_ascii (s : string) : bool :=
  match s with
  | EmptyString => true
  | String c r => N.ltb (N_of_ascii c) 128 && is_ascii r
  end.

(** An instance of what comes from outside: no conversion between
    different types, [float32] casts to [float64], and the decoder accepts
    ASCII, where UTF-8 is the identity. *)
Definition plain_external : External :=
  {| convert := fun _ _ => None;
     can_cast := fun src dst =>
       match src, dst with Float32, Float64 => true | _, _ => false end;
     utf8_decode := fun b => if is_ascii b then Some b else None |}.

(** An empty disk where files can be created. *)
Definition empty_disk : disk := Disk ∅ (fun _ => true).


Definition label_x : ndarray := NdArray (Bytes 1) [1] [Str "x"].

(** A zero-dimensional array. *)
Definition scalar_array : ndarray := NdArray Float32 [] [Num 1056964608].

(** Arrays of shape (2, 3) and (3,). *)
Definition array_2_3 : ndarray :=
  NdArray Float32 [2; 3] [Num 1; Num 2; Num 3; Num 4; Num 5; Num 6].

Definition array_3 : ndarray := NdArray Float32 [3] [Num 7; Num 8; Num 9].

Definition other_array_2_3 : ndarray :=
  NdArray Float32 [2; 3] [Num 11; Num 12; Num 13; Num 14; Num 15; Num 16].

Definition label_y : ndarray := NdArray (Bytes 1) [1] [Str "y"].

(** The disk after [array_2_3] has been written to a new file. *)
Definition disk_with_2_3 : disk :=
  (write_data_and_label (H := plain_external) "f.h5" "x" array_2_3 label_x empty_disk).1.

(** Label arrays of 2 and of 10 elements. *)
Definition two_labels : ndarray := NdArray (Bytes 1) [2] [Str "a"; Str "b"].

Definition ten_labels : ndarray := NdArray (Bytes 1) [10] (replicate 10 (Str "z")).


(** A dataset with both as attributes. *)
Definition labelled_dataset : dataset :=
  DatasetOf [2] None Float32 [Num 0; Num 0] [("big", ten_labels); ("label", two_labels)].

(** A file with a group [g] that holds the dataset, and a dataset [y]
    without attributes. *)
Definition example_group : item :=
  Group [("g", Group [("x", Dataset labelled_dataset)]);
         ("y", Dataset (new_dataset [1] [1] Float32))].

(** ** Further vocabulary *)

(** File system [w1] is [w] with directories added: the working directory
    is the same, every entry of [w] is in [w1] as it was, and what is new
    in [w1] is a directory. *)
Definition adds_directories (w w1 : world) : Prop :=
  cwd w1 = cwd w
  ∧ nodes w ⊆ nodes w1
  ∧ ∀ k v, nodes w1 !! k = Some v -> nodes w !! k = None -> v = Dir.

(** A dataset holds as many elements as its shape says. *)
Definition sized (ds : dataset) : Prop :=
  length (ds_data ds) = product (ds_shape ds).

(** Every dataset in the root group of every file of the disk does. *)
Definition sized_disk (d : disk) : Prop :=
  ∀ fp file name ds,
    files d !! fp = Some (H5File file) -> assoc name file = Some (Dataset ds) ->
    sized ds.

(** Member [it] called [name] is printed with indentation [k] when
    [group] is printed with indentation [indent]. *)
Inductive printed_member : item -> nat -> string -> item -> nat -> Prop :=
| printed_member_here members indent name it :
    (name, it) ∈ members ->
    printed_member (Group members) indent name it indent
| printed_member_below members indent gname sub name it k :
    (gname, Group sub) ∈ members ->
    printed_member (Group sub) (indent + 2) name it k ->
    printed_member (Group members) indent name it k.

(** The number of groups in a group, itself included. *)
Fixpoint groups (it : item) : nat :=
  match it with
  | Dataset _ => 0
  | Group members =>
      S ((fix total (ms : list (string * item)) : nat :=
            match ms with
            | [] => 0
            | (_, i) :: rest => groups i + total rest
            end) members)
  end.

(** The title lines of a report. *)
Definition is_title (l : line) : bool :=
  match l with LTitle => true | _ => false end.

(** An array with text elements (NumPy ['U']), as [np.array(['x'])]
    without [dtype='S'] gives. *)
Definition text_label : ndarray := NdArray (Unicode 1) [1] [Str "x"].

(** A dataset with an attribute of numbers, and a group that holds it
    between two datasets without attributes. *)
Definition scaled_dataset : dataset :=
  DatasetOf [2] None Float32 [Num 0; Num 0] [("label", two_labels); ("scale", array_3)].

Definition scaled_group : item :=
  Group [("a", Dataset (new_dataset [1] [1] Float32));
         ("g", Group [("x", Dataset scaled_dataset)]);
         ("z", Dataset (new_dataset [1] [1] Float32))].

(** An attribute as h5py hands it out as an array: its elements are no
    text (h5py cannot store NumPy's ['U']), and it is no single byte string
    (which h5py hands out as a [bytes] object, iterated byte by byte). *)
Definition array_attribute (v : ndarray) : bool :=
  storable (a_dtype v)
  && negb (bool_decide (a_shape v = [])
           && match a_dtype v with Bytes _ => true | _ => false end).

(** All the attributes of all the datasets of a group, at any depth,
    are. *)
Fixpoint array_attributes (it : item) : bool :=
  match it with
  | Dataset ds => forallb (fun nv => array_attribute nv.2) (ds_attrs ds)
  | Group members =>
      (fix all (ms : list (string * item)) : bool :=
         match ms with
         | [] => true
         | (_, i) :: rest => array_attributes i && all rest
         end) members
  end.

(** ** [main] of [h5_interfaces.py] *)

(** [np.array([f"label_{i}" for i in range(10)], dtype='S')]. *)
Definition main_label : ndarray :=
  NdArray (Bytes 7) [10]
    [Str "label_0"; Str "label_1"; Str "label_2"; Str "label_3"; Str "label_4";
     Str "label_5"; Str "label_6"; Str "label_7"; Str "label_8"; Str "label_9"].

(** [main()]: [random] are the elements that
    [np.random.rand(10, 3, 256, 256).astype(np.float32)] draws; the
    result is the file system, the disk, the lines printed and how the call
    ends. *)
Definition main `{External} (git_toplevel : world -> result string)
    (random : list scalar) (w : world) (d : disk)
    : world * disk * (list line * result unit) :=
  let '(w1, r) := datadir git_toplevel "example_directory" true w in
  match r with
  | Raise e => (w1, d, ([], Raise e))
  | Ret dir =>
      let file_path := Posix.join dir ["example.h5"] in
      let dataset_name := "example_dataset" in
      let data := NdArray Float32 [10; 3; 256; 256] random in
      let label := main_label in
      let '(d1, r1) := write_data_and_label file_path dataset_name data label d in
      match r1 with
      | Raise e => (w1, d1, ([], Raise e))
      | Ret _ =>
          match open_existing file_path d1 with
          | Raise e => (w1, d1, ([], Raise e))
          | Ret file => (w1, d1, print_hdf5_structure (Group file) 2)
          end
      end
  end.


(** What [main] leaves in the file, and what it prints. *)
Definition main_file (random : list scalar) : list (string * item) :=
  [("example_dataset",
    Dataset (DatasetOf [10; 3; 256; 256] (Some [1; 3; 256; 256]) Float32 random
               [("label", main_label)]))].

Definition main_lines : list line :=
  [LTitle; LDatasetTag 2; LDataset 6 "example_dataset" [10; 3; 256; 256] Float32;
   LAttrTag 2; LAttr 6 "label" [10] (Bytes 7)].

(** * Properties *)

(** ** Path strings *)

Lemma take_length_le i p : String.length (Posix.take i p) <= String.length p.
Proof.
  revert i; induction p as [|c r IH]; intros [|i]; simpl; try lia.
  specialize (IH i); lia.
Qed.

Lemma take_full i p :
  String.length (Posix.take i p) = String.length p -> Posix.take i p = p.
Proof.
  revert i; induction p as [|c r IH]; intros [|i]; simpl; try done.
  intros H; f_equal; apply IH; lia.
Qed.

Lemma take_drop_length i p :
  String.length (Posix.take i p) + String.length (Posix.drop i p) = String.length p.
Proof.
  revert i; induction p as [|c r IH]; intros [|i]; simpl; try lia.
  specialize (IH i); lia.
Qed.

Lemma rstrip_length_le s : String.length (Posix.rstrip s) <= String.length s.
Proof.
  induction s as [|c r IH]; simpl; [lia|].
  destruct (Posix.rstrip r) eqn:E; [destruct (Posix.is_sep c)|]; simpl in *; lia.
Qed.

Lemma rstrip_full s :
  String.length (Posix.rstrip s) = String.length s -> Posix.rstrip s = s.
Proof.
  induction s as [|c r IH]; simpl; [done|].
  pose proof (rstrip_length_le r) as Hle.
  destruct (Posix.rstrip r) eqn:E.
  - destruct (Posix.is_sep c); simpl in *; intros H; [lia|].
    rewrite <- IH by lia; done.
  - simpl in *; intros H; f_equal; symmetry; rewrite <- IH by lia; done.
Qed.

Lemma dirname_length_le p : String.length (Posix.dirname p) <= String.length p.
Proof.
  unfold Posix.dirname.
  pose proof (take_length_le (Posix.rfind_sep_succ p) p).
  pose proof (rstrip_length_le (Posix.take (Posix.rfind_sep_succ p) p)).
  destruct (_ && _); lia.
Qed.

(** A path is its own [dirname], or [dirname] is strictly shorter. *)
Lemma dirname_shorter p :
  p ≠ Posix.dirname p -> String.length (Posix.dirname p) < String.length p.
Proof.
  intros Hne.
  destruct (decide (String.length (Posix.dirname p) = String.length p)) as [E|];
    [|pose proof (dirname_length_le p); lia].
  exfalso; apply Hne; revert E; unfold Posix.dirname.
  pose proof (take_length_le (Posix.rfind_sep_succ p) p).
  pose proof (rstrip_length_le (Posix.take (Posix.rfind_sep_succ p) p)).
  destruct (_ && _); intros E.
  - rewrite rstrip_full by lia. symmetry; apply take_full; lia.
  - symmetry; apply take_full; lia.
Qed.

Lemma split_length p h t :
  Posix.split p = (h, t) -> String.length h + String.length t <= String.length p.
Proof.
  unfold Posix.split; intros [= <- <-].
  pose proof (take_drop_length (Posix.rfind_sep_succ p) p).
  pose proof (rstrip_length_le (Posix.take (Posix.rfind_sep_succ p) p)).
  destruct (_ && _); lia.
Qed.

(** ** Directory entries *)

Lemma child_of_spec d k n : child_of d k = Some n <-> k = d ++ [n].
Proof.
  revert k; induction d as [|x d IH]; intros k; simpl.
  - destruct k as [|y [|z k]]; split; try done; by intros [= ->].
  - destruct k as [|y k]; [split; [done|by destruct d]|].
    case_bool_decide as E.
    + subst y. rewrite IH. split; [by intros ->|by intros [= ->]].
    + split; [done|]. intros [= -> _]. done.
Qed.

(** [os.listdir] gives the names that are bound in the directory. *)
Lemma elem_of_entries nd d n : n ∈ entries nd d <-> is_Some (nd !! (d ++ [n])).
Proof.
  unfold entries. rewrite list_elem_of_omap. split.
  - intros ([k v] & Hin & Hc). apply elem_of_map_to_list in Hin.
    apply child_of_spec in Hc. simpl in Hc. subst k. eauto.
  - intros [v Hv]. exists (d ++ [n], v). split; [by apply elem_of_map_to_list|].
    by apply child_of_spec.
Qed.

(** ** The loop of [find_project_root] *)

(** With more fuel than [current_dir] has characters the loop comes to its
    end, and it is the scan of the directories below the root. *)
Lemma find_loop_scan marker w fuel current_dir :
  String.length current_dir < fuel ->
  find_loop fuel marker w current_dir
  = Some (scan marker w (below_root fuel current_dir)).
Proof.
  revert current_dir; induction fuel as [|fuel IH]; intros d Hlt; [lia|].
  simpl. case_bool_decide as Hd; [|done].
  simpl. destruct (listdir w d) as [names|e]; [|done].
  case_bool_decide; [done|].
  apply IH. pose proof (dirname_shorter d Hd). lia.
Qed.

(** [find_project_root] never runs out of fuel. *)
Lemma find_project_root_scan marker w :
  find_project_root marker w
  = scan marker w (walked (cwd w)).
Proof.
  unfold find_project_root, walked. rewrite find_loop_scan by lia. done.
Qed.

Lemma walk_raises nd cur comps e :
  walk nd cur comps = Raise e -> ∃ n, e = OSError n.
Proof.
  revert cur; induction comps as [|c rest IH]; intros cur; simpl; [done|].
  destruct (_ || _); [apply IH|].
  case_bool_decide; [apply IH|].
  destruct (nd !! (cur ++ [c])) as [[]|]; [destruct rest|apply IH|]; naive_solver.
Qed.

Lemma stat_raises w p e : stat w p = Raise e -> ∃ n, e = OSError n.
Proof.
  unfold stat, start. destruct (negb _); [naive_solver|].
  destruct (Posix.startswith_sep p); [apply walk_raises|].
  destruct (walk (nodes w) [] _) as [[d []]|e'] eqn:E; [naive_solver|apply walk_raises|].
  intros [= <-]. eapply walk_raises, E.
Qed.

(** A system call never raises the error of [find_project_root] itself. *)
Lemma listdir_raises w d e : listdir w d = Raise e -> ∃ n, e = OSError n.
Proof.
  unfold listdir. destruct (stat w d) as [[c []]|e'] eqn:E; [naive_solver|done|].
  intros [= <-]. eapply stat_raises, E.
Qed.

Lemma scan_nearest marker w pre d post :
  (∀ x, x ∈ pre -> lacks w x marker) ->
  contains w d marker ->
  scan marker w (pre ++ d :: post) = Ret d.
Proof.
  intros Hpre (names & Hl & Hin).
  induction pre as [|x pre IH]; simpl.
  - rewrite Hl. by rewrite bool_decide_true.
  - destruct (Hpre x) as (nx & Hx & Hnx); [left|].
    rewrite Hx, bool_decide_false by done.
    apply IH. intros y Hy. apply Hpre. by right.
Qed.

Lemma scan_not_found marker w dirs :
  scan marker w dirs = Raise (FileNotFoundError (not_found_msg marker))
  <-> ∀ d, d ∈ dirs -> lacks w d marker.
Proof.
  induction dirs as [|d dirs IH]; simpl.
  - split; [intros _ d Hd; inversion Hd|done].
  - destruct (listdir w d) as [names|e] eqn:El.
    + case_bool_decide as Hm.
      * split; [done|]. intros H. destruct (H d) as (n' & Hn' & Hnot); [left|].
        congruence.
      * rewrite IH. split.
        -- intros H x Hx. apply elem_of_cons in Hx as [->|Hx]; [by exists names|auto].
        -- intros H x Hx. apply H. by right.
    + split.
      * intros [= ->]. apply listdir_raises in El as [n Hn]. done.
      * intros H. destruct (H d) as (n' & Hn' & _); [left|]. congruence.
Qed.

(** The part of the nearest-ancestor property that the loop has: when the
    nearest ancestor with the marker lies below the root of the file
    system, it is the result. *)
Lemma find_project_root_nearest_below_root marker w pre d post :
  walked (cwd w) = pre ++ d :: post ->
  (∀ x, x ∈ pre -> lacks w x marker) ->
  contains w d marker ->
  find_project_root marker w = Ret d.
Proof.
  intros Hdirs Hpre Hd. rewrite find_project_root_scan, Hdirs.
  by apply scan_nearest.
Qed.

(** C1: the nearest ancestor of the working directory that contains the
    marker is not always the result: a marker in the root directory of the
    file system is never seen.  With the working directory [/a] and
    [setup.cfg] in [/] only, [/] is an ancestor that contains the marker and
    [/a] does not, and [find_project_root] raises its not-found error. *)
Theorem find_project_root_misses_root :
  ancestors (cwd world_marker_in_root) = ["/a"; "/"]
  ∧ lacks world_marker_in_root "/a" "setup.cfg"
  ∧ contains world_marker_in_root "/" "setup.cfg"
  ∧ find_project_root "setup.cfg" world_marker_in_root
    = Raise (FileNotFoundError (not_found_msg "setup.cfg")).
Proof.
  split; [by vm_compute|].
  split; [exists []; split; [by vm_compute|apply not_elem_of_nil]|].
  split; [|by vm_compute].
  exists ["setup.cfg"; "a"]. split; [by vm_compute|left].
Qed.

(** C2: when no ancestor of the working directory, the root of the file
    system included, has the marker, [find_project_root] raises its
    not-found error and returns no path.  It does not raise that error only
    then: the walk upward stops in front of the root, so with the working
    directory [/a] and [setup.cfg] in [/], which is on the path from the
    working directory to the root, the error is raised all the same. *)
Theorem find_project_root_not_found :
  (∀ marker w,
     (∀ d, d ∈ ancestors (cwd w) -> lacks w d marker) ->
     find_project_root marker w = Raise (FileNotFoundError (not_found_msg marker)))
  ∧ ("/" ∈ ancestors (cwd world_marker_in_root)
     ∧ contains world_marker_in_root "/" "setup.cfg"
     ∧ find_project_root "setup.cfg" world_marker_in_root
       = Raise (FileNotFoundError (not_found_msg "setup.cfg")))
  ∧ ¬ (∀ marker w,
         find_project_root marker w = Raise (FileNotFoundError (not_found_msg marker)) ->
         ∀ d, d ∈ ancestors (cwd w) -> ¬ contains w d marker).
Proof.
  assert (Hroot : "/" ∈ ancestors (cwd world_marker_in_root)
                  ∧ contains world_marker_in_root "/" "setup.cfg"
                  ∧ find_project_root "setup.cfg" world_marker_in_root
                    = Raise (FileNotFoundError (not_found_msg "setup.cfg"))).
  { split; [|split; [|by vm_compute]].
    - assert (E : ancestors (cwd world_marker_in_root) = ["/a"; "/"]) by (by vm_compute).
      rewrite E. right. left.
    - exists ["setup.cfg"; "a"]. split; [by vm_compute|left]. }
  split; [|split; [done|]].
  - intros marker w H. rewrite find_project_root_scan. apply scan_not_found.
    intros d Hd. apply H. unfold ancestors. apply elem_of_app. by left.
  - intros Hall. destruct Hroot as (Hin & Hc & Hr). by apply (Hall _ _ Hr "/" Hin).
Qed.

Lemma find_project_root_not_found_witness :
  find_project_root "setup.cfg" world_no_marker
  = Raise (FileNotFoundError (not_found_msg "setup.cfg")).
Proof.
  apply (proj1 find_project_root_not_found "setup.cfg" world_no_marker).
  intros d Hd.
  assert (Hanc : ancestors (cwd world_no_marker) = ["/proj/src"; "/proj"; "/"])
    by (by vm_compute).
  rewrite Hanc in Hd.
  repeat (apply elem_of_cons in Hd as [->|Hd]).
  - exists []. split; [by vm_compute|apply not_elem_of_nil].
  - exists ["src"]. split; [by vm_compute|].
    intros H; apply list_elem_of_singleton in H; done.
  - exists ["proj"]. split; [by vm_compute|].
    intros H; apply list_elem_of_singleton in H; done.
  - inversion Hd.
Defined.

(** ** The two tiers of [gitdir] *)

Lemma find_project_root_raises marker w e :
  find_project_root marker w = Raise e ->
  e = FileNotFoundError (not_found_msg marker) ∨ ∃ n, e = OSError n.
Proof.
  rewrite find_project_root_scan.
  induction (walked _) as [|d dirs IH]; simpl; [intros [= <-]; by left|].
  destruct (listdir w d) as [names|e'] eqn:El.
  - case_bool_decide; [done|apply IH].
  - intros [= <-]. right. eapply listdir_raises, El.
Qed.

(** C3: [gitdir] asks version control first and returns its answer; when
    that query fails because there is no repository or no such path, and
    only then, the result is the one of [find_project_root] with the default
    marker, whether a path or the error of that search; any other failure of
    the query is raised as it is; and the two failures that start the
    fallback are never what [gitdir] raises. *)
Theorem gitdir_fallback_chain (git : world -> result string) (w : world) :
  (∀ root, git w = Ret root -> gitdir git w = Ret root)
  ∧ (git w = Raise InvalidGitRepositoryError ∨ git w = Raise NoSuchPathError ->
     gitdir git w = find_project_root default_marker w)
  ∧ (∀ e, git w = Raise e -> e ≠ InvalidGitRepositoryError -> e ≠ NoSuchPathError ->
     gitdir git w = Raise e)
  ∧ gitdir git w ≠ Raise InvalidGitRepositoryError
  ∧ gitdir git w ≠ Raise NoSuchPathError.
Proof.
  unfold gitdir. repeat split.
  - by intros root ->.
  - by intros [-> | ->].
  - intros e -> H1 H2. by destruct e.
  - destruct (git w) as [root|e] eqn:E; [done|].
    destruct e; try done; intros Hr;
      apply find_project_root_raises in Hr as [?|[? ?]]; done.
  - destruct (git w) as [root|e] eqn:E; [done|].
    destruct e; try done; intros Hr;
      apply find_project_root_raises in Hr as [?|[? ?]]; done.
Qed.

Lemma gitdir_fallback_chain_witness :
  gitdir no_repository world_in_data = Ret "/proj".
Proof.
  rewrite (proj1 (proj2 (gitdir_fallback_chain no_repository world_in_data)));
    [by vm_compute|by left].
Defined.

(** ** Creating directories *)

Lemma walk_mono nd nd' cur comps r :
  nd ⊆ nd' -> walk nd cur comps = Ret r -> walk nd' cur comps = Ret r.
Proof.
  intros Hsub. revert cur; induction comps as [|c rest IH]; intros cur; simpl; [done|].
  destruct (_ || _); [apply IH|].
  case_bool_decide; [apply IH|].
  destruct (nd !! (cur ++ [c])) as [k|] eqn:E; [|done].
  rewrite (lookup_weaken _ _ _ _ E Hsub).
  destruct k; [done|apply IH].
Qed.

Lemma walk_app_dir nd cur a b d :
  walk nd cur a = Ret (d, Dir) -> walk nd cur (a ++ b) = walk nd d b.
Proof.
  revert cur; induction a as [|c rest IH]; intros cur; simpl; [by intros [= ->]|].
  destruct (_ || _); [apply IH|].
  case_bool_decide; [apply IH|].
  destruct (nd !! (cur ++ [c])) as [[]|]; [|apply IH|done].
  by destruct rest.
Qed.

Lemma walk_empties nd cur k : walk nd cur (replicate k "") = Ret (cur, Dir).
Proof. induction k; simpl; done. Qed.

Lemma strip_trailing_spec l : ∃ k, l = strip_trailing l ++ replicate k "".
Proof.
  induction l as [|c r [k IH]]; simpl; [by exists 0|].
  destruct (strip_trailing r) as [|x r'] eqn:E.
  - case_bool_decide as Hc.
    + exists (S k). simpl in *. by rewrite Hc, IH.
    + exists k. simpl in *. by rewrite IH at 1.
  - exists k. simpl. by rewrite IH at 1.
Qed.

Lemma unsnoc_spec l i x : unsnoc l = Some (i, x) -> l = i ++ [x].
Proof.
  revert i; induction l as [|y r IH]; intros i; simpl; [done|].
  destruct r as [|z r']; [by intros [= <- <-]|].
  destruct (unsnoc (z :: r')) as [[i' y']|]; [|done].
  intros [= <- <-]. simpl. f_equal. by apply IH.
Qed.

Lemma strip_trailing_snoc l i x : strip_trailing l = i ++ [x] -> x ≠ "".
Proof.
  revert i; induction l as [|c r IH]; intros i; simpl; [by destruct i|].
  destruct (strip_trailing r) as [|y r'] eqn:E.
  - case_bool_decide; [by destruct i|].
    destruct i as [|c' [|]]; [by intros [= <-]|done..].
  - destruct i as [|c' i']; [done|]. intros [= <- H]. by apply (IH i').
Qed.

Lemma strip_trailing_last l i x :
  unsnoc (strip_trailing l) = Some (i, x) -> x ≠ "".
Proof. intros H%unsnoc_spec. by apply strip_trailing_snoc in H. Qed.

Lemma start_mono w nd' p d :
  nodes w ⊆ nd' -> start w p = Ret d -> start (World nd' (cwd w)) p = Ret d.
Proof.
  unfold start; simpl. intros Hsub. destruct (Posix.startswith_sep p); [done|].
  destruct (walk (nodes w) [] _) as [[d' k]|] eqn:E; [|done].
  by rewrite (walk_mono _ _ _ _ _ Hsub E).
Qed.

(** After [os.mkdir(p)] the path [p] is a directory. *)
Lemma mkdir_isdir p w w1 : mkdir p w = (w1, Ret tt) -> isdir w1 p = true.
Proof.
  unfold mkdir, isdir, stat.
  destruct (negb (Posix.nonempty p)); [done|].
  destruct (start w p) as [d0|] eqn:Es; [|done].
  destruct (unsnoc _) as [[parent name]|] eqn:Eu; [|done].
  destruct (walk (nodes w) d0 parent) as [[d []]|] eqn:Ew; try done.
  destruct (_ || _) eqn:Edots; [done|].
  destruct (nodes w !! (d ++ [name])) eqn:El; [done|].
  intros [= <-].
  assert (Hsub : nodes w ⊆ <[d ++ [name]:=Dir]> (nodes w)) by by apply insert_subseteq.
  rewrite (start_mono _ _ _ _ Hsub Es). simpl.
  destruct (strip_trailing_spec (Posix.components p)) as [k Hk].
  rewrite Hk, (unsnoc_spec _ _ _ Eu), <- !app_assoc.
  rewrite (walk_app_dir _ _ _ _ _ (walk_mono _ _ _ _ _ Hsub Ew)).
  simpl. apply strip_trailing_last in Eu.
  apply orb_false_iff in Edots as [H1 H2].
  rewrite (bool_decide_false (name = "")), H1 by done. simpl. rewrite H2.
  rewrite lookup_insert_eq. by rewrite walk_empties.
Qed.

Lemma mkdir_raises p w w1 e : mkdir p w = (w1, Raise e) -> ∃ n, e = OSError n.
Proof.
  unfold mkdir.
  destruct (negb (Posix.nonempty p)); [naive_solver|].
  destruct (start w p) as [d0|e'] eqn:Es.
  - destruct (unsnoc _) as [[parent name]|]; [|naive_solver].
    destruct (walk (nodes w) d0 parent) as [[d []]|e'] eqn:Ew; [naive_solver| |].
    + destruct (_ || _); [naive_solver|].
      destruct (nodes w !! (d ++ [name])); naive_solver.
    + intros [= _ <-]. eapply walk_raises, Ew.
  - intros [= _ <-]. revert Es. unfold start.
    destruct (Posix.startswith_sep p); [done|].
    destruct (walk (nodes w) [] _) as [[d []]|e''] eqn:Ew; [naive_solver|done|].
    intros [= <-]. eapply walk_raises, Ew.
Qed.

(** The head that [os.makedirs] recurses on is shorter than the path. *)
Lemma split_name_shorter name head tail :
  split_name name = (head, tail) -> Posix.nonempty tail = true ->
  String.length head < String.length name.
Proof.
  unfold split_name. destruct (Posix.split name) as [h t] eqn:E1.
  apply split_length in E1.
  destruct (negb (Posix.nonempty t)).
  - intros E2 Ht. apply split_length in E2. destruct tail; [done|]. simpl in *. lia.
  - intros [= <- <-] Ht. destruct t; [done|]. simpl in *. lia.
Qed.

(** [os.makedirs] never runs out of fuel. *)
Lemma makedirs_rec_fuel fuel name w :
  String.length name < fuel ->
  (makedirs_rec fuel name w).2 ≠ Raise RecursionError.
Proof.
  revert name w; induction fuel as [|fuel IH]; intros name w Hlt; [lia|].
  simpl. destruct (split_name name) as [head tail] eqn:Es.
  assert (Hmk : ∀ w', (mkdir name w').2 ≠ Raise RecursionError).
  { intros w'. destruct (mkdir name w') as [w2 [[]|e]] eqn:Em; [done|].
    apply mkdir_raises in Em as [n ->]. done. }
  destruct (Posix.nonempty head && Posix.nonempty tail && negb (exists_ w head)) eqn:Ec;
    [|apply Hmk].
  apply andb_prop in Ec as [Ec _]. apply andb_prop in Ec as [_ Ht].
  pose proof (split_name_shorter _ _ _ Es Ht) as Hsh.
  specialize (IH head w ltac:(lia)).
  destruct (makedirs_rec fuel head w) as [w1 [[]|e]]; simpl in *.
  - case_bool_decide; [done|apply Hmk].
  - destruct (is_FileExistsError e) eqn:Ee; [|done].
    case_bool_decide; [done|apply Hmk].
Qed.

(** When [os.makedirs(name)] returns and the last name of the path is not
    [.], the path is a directory. *)
Lemma makedirs_isdir name w w1 :
  makedirs name w = (w1, Ret tt) -> (split_name name).2 ≠ Posix.curdir ->
  isdir w1 name = true.
Proof.
  unfold makedirs. simpl. destruct (split_name name) as [head tail]. simpl.
  intros H Htail. rewrite bool_decide_false in H by done.
  destruct (_ && _ && _).
  - destruct (makedirs_rec _ head w) as [w' [[]|e]].
    + by apply mkdir_isdir in H.
    + destruct (is_FileExistsError e); [by apply mkdir_isdir in H|done].
  - by apply mkdir_isdir in H.
Qed.

Lemma isdir_exists w p : isdir w p = true -> exists_ w p = true.
Proof. unfold isdir, exists_. by destruct (stat w p) as [[? []]|]. Qed.

(** ** [datadir] and [plotsdir], called twice *)

Lemma resource_dir_twice git category name w w1 p :
  resource_dir git category name true w = (w1, Ret p) ->
  gitdir git w1 = gitdir git w ->
  (split_name p).2 ≠ Posix.curdir ->
  resource_dir git category name true w1 = (w1, Ret p)
  ∧ exists_ w1 p = true
  ∧ (exists_ w p = false -> isdir w1 p = true).
Proof.
  unfold resource_dir. intros H Hroot Hdot. rewrite Hroot.
  destruct (gitdir git w) as [root|]; [|done].
  set (q := Posix.join root [category; name]) in *. clearbody q.
  destruct (exists_ w q) eqn:Ex; cbn [negb andb] in H.
  - injection H as Hw Hp. subst w1 p. rewrite Ex. cbn [negb andb].
    done.
  - destruct (makedirs q w) as [w' [[]|]] eqn:Em; [|done].
    injection H as Hw Hp. subst w' p.
    pose proof (makedirs_isdir _ _ _ Em Hdot) as Hd.
    rewrite (isdir_exists _ _ Hd). done.
Qed.

(** C4, as it holds: when [datadir(name)] returns a path whose last name
    is not [.], and the second call finds the same project root as the
    first, the second call returns the same path and leaves the file system
    as the first call left it; the path exists after the first call, as a
    directory when the call had to create it.  The same for [plotsdir]. *)
Theorem datadir_plotsdir_twice git name w w1 p :
  gitdir git w1 = gitdir git w ->
  (split_name p).2 ≠ Posix.curdir ->
  (datadir git name true w = (w1, Ret p) ->
   datadir git name true w1 = (w1, Ret p)
   ∧ exists_ w1 p = true
   ∧ (exists_ w p = false -> isdir w1 p = true))
  ∧ (plotsdir git name true w = (w1, Ret p) ->
     plotsdir git name true w1 = (w1, Ret p)
     ∧ exists_ w1 p = true
     ∧ (exists_ w p = false -> isdir w1 p = true)).
Proof.
  intros Hroot Hdot. split; intros Hcall.
  - by apply (resource_dir_twice git "data/" name w w1 p).
  - by apply (resource_dir_twice git "plots/" name w w1 p).
Qed.

Lemma datadir_plotsdir_twice_witness :
  let w1 := (datadir no_repository "example_directory" true world_fresh_project).1 in
  datadir no_repository "example_directory" true w1
  = (w1, Ret "/proj/data/example_directory")
  ∧ isdir w1 "/proj/data/example_directory" = true.
Proof.
  intros w1.
  destruct (datadir_plotsdir_twice no_repository "example_directory"
              world_fresh_project w1 "/proj/data/example_directory")
    as [Hdata _].
  - by vm_compute.
  - by vm_compute.
  - destruct Hdata as (H1 & _ & H3); [by vm_compute|].
    split; [done|]. apply H3. by vm_compute.
Defined.

(** C4, as the specification has it, fails: in a project without a
    repository, with the working directory [/proj/data], the first
    [datadir("setup.cfg")] returns [/proj/data/setup.cfg] and creates that
    directory; the second call finds the marker name in [/proj/data], takes
    it for the project root, returns [/proj/data/data/setup.cfg] and creates
    two more directories. *)
Lemma datadir_twice_counterexample :
  ¬ (∀ git name w w1 p,
       datadir git name true w = (w1, Ret p) ->
       datadir git name true w1 = (w1, Ret p)).
Proof.
  intros H.
  specialize (H no_repository "setup.cfg" world_in_data
                (datadir no_repository "setup.cfg" true world_in_data).1
                "/proj/data/setup.cfg" ltac:(by vm_compute)).
  apply (f_equal snd) in H. vm_compute in H. done.
Qed.

(** What the two calls of the counterexample return, and the directories
    the second one adds. *)
Example datadir_twice_trace :
  let w1 := (datadir no_repository "setup.cfg" true world_in_data).1 in
  let w2 := (datadir no_repository "setup.cfg" true w1).1 in
  (datadir no_repository "setup.cfg" true world_in_data).2 = Ret "/proj/data/setup.cfg"
  ∧ (datadir no_repository "setup.cfg" true w1).2 = Ret "/proj/data/data/setup.cfg"
  ∧ nodes w1 !! ["proj"; "data"; "data"] = None
  ∧ nodes w2 !! ["proj"; "data"; "data"] = Some Dir
  ∧ nodes w2 !! ["proj"; "data"; "data"; "setup.cfg"] = Some Dir.
Proof. by vm_compute. Qed.

(** Why the last name must not be [.]: with a regular file [f] in the data
    directory, [os.makedirs] returns for [newdir/../f/.] after the error of
    its recursive call, the path is no directory, and the second call
    raises. *)
Example datadir_dot_after_file :
  let w1 := (datadir no_repository "newdir/../f/." true world_file_in_data).1 in
  (datadir no_repository "newdir/../f/." true world_file_in_data).2
  = Ret "/proj/data/newdir/../f/."
  ∧ exists_ w1 "/proj/data/newdir/../f/." = false
  ∧ (datadir no_repository "newdir/../f/." true w1).2 = Raise (OSError ENOTDIR).
Proof. by vm_compute. Qed.

(** ** Named members and attributes *)

Lemma assoc_replace_named_eq {A} k (v : A) l :
  is_Some (assoc k l) -> assoc k (replace_named k v l) = Some v.
Proof.
  induction l as [|[k' v'] r IH]; simpl; [by intros [? ?]|].
  case_bool_decide as E; simpl.
  - by rewrite bool_decide_true.
  - rewrite bool_decide_false by done. apply IH.
Qed.

Lemma assoc_replace_named_ne {A} k k' (v : A) l :
  k ≠ k' -> assoc k' (replace_named k v l) = assoc k' l.
Proof.
  intros Hne. induction l as [|[k0 v0] r IH]; simpl; [done|].
  case_bool_decide as E; simpl.
  - subst k0. by rewrite !bool_decide_false.
  - by rewrite IH.
Qed.

Lemma assoc_insert_by_name_eq {A} k (v : A) l :
  assoc k l = None -> assoc k (insert_by_name k v l) = Some v.
Proof.
  induction l as [|[k' v'] r IH]; simpl; [by rewrite bool_decide_true|].
  case_bool_decide as E; [done|]. intros Hr.
  destruct (String.ltb k k'); simpl.
  - by rewrite bool_decide_true.
  - rewrite bool_decide_false by done. by apply IH.
Qed.

Lemma assoc_insert_by_name_ne {A} k k' (v : A) l :
  k ≠ k' -> assoc k' (insert_by_name k v l) = assoc k' l.
Proof.
  intros Hne. induction l as [|[k0 v0] r IH]; simpl; [by rewrite bool_decide_false|].
  destruct (String.ltb k k0); simpl.
  - by rewrite (bool_decide_false (k' = k)).
  - by rewrite IH.
Qed.


Lemma assoc_set_eq {A} k (v : A) l : assoc k (assoc_set k v l) = Some v.
Proof.
  unfold assoc_set. destruct (assoc k l) eqn:E.
  - by apply assoc_replace_named_eq.
  - by apply assoc_insert_by_name_eq.
Qed.

Lemma assoc_set_ne {A} k k' (v : A) l :
  k ≠ k' -> assoc k' (assoc_set k v l) = assoc k' l.
Proof.
  intros Hne. unfold assoc_set. destruct (assoc k l).
  - by apply assoc_replace_named_ne.
  - by apply assoc_insert_by_name_ne.
Qed.

Lemma assoc_set_None {A} k (v : A) l :
  assoc k l = None -> assoc_set k v l = insert_by_name k v l.
Proof. unfold assoc_set. by intros ->. Qed.

Lemma assoc_set_nil {A} k (v : A) : assoc_set k v [] = [(k, v)].
Proof. done. Qed.

Lemma assoc_set_head {A} k (v v' : A) r : assoc_set k v ((k, v') :: r) = (k, v) :: r.
Proof. unfold assoc_set. simpl. by rewrite !bool_decide_true. Qed.

Lemma assoc_set_keys {A} k (v : A) l :
  is_Some (assoc k l) -> (assoc_set k v l).*1 = l.*1.
Proof.
  unfold assoc_set. intros [x Hx]. rewrite Hx. clear x Hx.
  induction l as [|[k0 v0] r IH]; simpl; [done|].
  case_bool_decide as E; [by subst|].
  rewrite !fmap_cons. f_equal. by apply IH.
Qed.

Lemma assoc_set_id {A} k (v : A) l : assoc k l = Some v -> assoc_set k v l = l.
Proof.
  unfold assoc_set. intros Hs. rewrite Hs.
  induction l as [|[k0 v0] r IH]; simpl in *; [done|].
  case_bool_decide as E; [by injection Hs as ->; subst|].
  by rewrite IH.
Qed.


Lemma set_root_set_root fp file1 file2 d :
  set_root fp file2 (set_root fp file1 d) = set_root fp file2 d.
Proof. unfold set_root; simpl. by rewrite insert_insert_eq. Qed.

Lemma lookup_set_root fp file d : files (set_root fp file d) !! fp = Some (H5File file).
Proof. unfold set_root; simpl. by rewrite lookup_insert_eq. Qed.

Lemma lookup_set_root_ne fp fp' file d :
  fp ≠ fp' -> files (set_root fp file d) !! fp' = files d !! fp'.
Proof. intros E. unfold set_root; simpl. by rewrite lookup_insert_ne. Qed.

(** ** Shapes *)

(** The chunk shape of [setup_hdf5_file] is accepted exactly for a shape
    with a leading axis and no dimension 0. *)
Lemma forallb_positive rest :
  forallb (fun p : nat * nat => (0 <? p.2) && (p.2 <=? p.1)) (zip rest rest) = true
  <-> Forall (lt 0) rest.
Proof.
  induction rest as [|r rest IH]; simpl; [by split|].
  rewrite Forall_cons, <- IH, Nat.leb_refl, andb_true_r, andb_true_iff, Nat.ltb_lt.
  done.
Qed.

Lemma check_chunks_leading shape :
  check_chunks shape (1 :: tail shape) = Ret tt <-> shape ≠ [] ∧ Forall (lt 0) shape.
Proof.
  destruct shape as [|n rest].
  - simpl. split; [done|]. by intros [? _].
  - cbn [check_chunks tail length zip zip_with forallb fst snd].
    rewrite Nat.eqb_refl. cbn [negb].
    rewrite Forall_cons, <- forallb_positive.
    destruct n as [|n]; cbn [Nat.ltb Nat.leb andb].
    + split; [done|]. intros [_ [? _]]. lia.
    + destruct (forallb _ _); cbn.
      * split; [|done]. intros _. split; [done|]. split; [lia|done].
      * split; [done|]. by intros [_ [_ ?]].
Qed.


(** ** [setup_hdf5_file] *)

Section Setup.
Context `{External}.

Lemma setup_fresh d fp name shape :
  files d !! fp = None -> creatable d fp = true ->
  shape ≠ [] -> Forall (lt 0) shape ->
  setup_hdf5_file fp name shape d
  = (set_root fp [(name, Dataset (new_dataset shape (1 :: tail shape) Float32))] d,
     Ret tt).
Proof.
  intros Hf Hc Hs Hp. unfold setup_hdf5_file, open_append, require_dataset.
  rewrite Hf, Hc. simpl assoc. cbn iota.
  rewrite (proj2 (check_chunks_leading shape)) by done.
  rewrite assoc_set_nil. by rewrite set_root_set_root.
Qed.




(** What holds after [setup_hdf5_file] returned: the file is there, with a
    dataset of that name and shape; the dataset is the one that was there,
    or a new one when the name was free. *)
Lemma setup_returns d fp name shape d' :
  setup_hdf5_file fp name shape d = (d', Ret tt) ->
  ∃ file file' ds,
    (files d !! fp = None ∧ creatable d fp = true ∧ file = []
     ∨ files d !! fp = Some (H5File file))
    ∧ d' = set_root fp file' d
    ∧ assoc name file' = Some (Dataset ds)
    ∧ ds_shape ds = shape
    ∧ safe_cast Float32 (ds_dtype ds) = true
    ∧ (assoc name file = None ->
       check_chunks shape (1 :: tail shape) = Ret tt
       ∧ ds = new_dataset shape (1 :: tail shape) Float32
       ∧ file' = insert_by_name name (Dataset ds) file)
    ∧ (is_Some (assoc name file) -> file' = file).
Proof.
  unfold setup_hdf5_file, open_append.
  assert (Hreq : ∀ file d1 d',
    match require_dataset name shape (1 :: tail shape) Float32 file with
    | Ret file' => (set_root fp file' d1, Ret tt)
    | Raise e => (d1, Raise e)
    end = (d', Ret tt) ->
    ∃ file' ds, d' = set_root fp file' d1
      ∧ assoc name file' = Some (Dataset ds) ∧ ds_shape ds = shape
      ∧ safe_cast Float32 (ds_dtype ds) = true
      ∧ (assoc name file = None ->
         check_chunks shape (1 :: tail shape) = Ret tt
         ∧ ds = new_dataset shape (1 :: tail shape) Float32
         ∧ file' = insert_by_name name (Dataset ds) file)
      ∧ (is_Some (assoc name file) -> file' = file)).
  { intros file d1 d2. unfold require_dataset.
    destruct (assoc name file) as [[ms|ds]|] eqn:Ea; [done| |].
    - case_bool_decide as Es; [|done]. simpl.
      destruct (safe_cast Float32 (ds_dtype ds)) eqn:Ec; [|done]. simpl.
      intros [= <-]. exists file, ds. repeat split; try done.
    - destruct (check_chunks shape (1 :: tail shape)) as [[]|] eqn:Ek; [|done].
      intros [= <-]. eexists _, _. split; [done|].
      rewrite assoc_set_eq. repeat split; try done.
      by rewrite assoc_set_None. }
  destruct (files d !! fp) as [[file|]|] eqn:Ef; [| done |].
  - intros Hr. apply Hreq in Hr as (file' & ds & -> & ?). exists file, file', ds.
    split; [by right|]. done.
  - destruct (creatable d fp) eqn:Ec; [|done].
    intros Hr. apply Hreq in Hr as (file' & ds & -> & ?). exists [], file', ds.
    split; [by left|]. by rewrite set_root_set_root.
Qed.

End Setup.




(** What the call of the counterexample does. *)
Example setup_hdf5_file_scalar_trace :
  let r := setup_hdf5_file (H := plain_external) "f.h5" "x" [] empty_disk in
  r.2 = Raise TypeError ∧ files r.1 !! "f.h5" = Some (H5File []).
Proof. by vm_compute. Qed.

(** ** [write_data_and_label] *)

Section Write.
Context `{External}.



(** C10, as it holds: in a file that exists and has no member of that
    name (a plain name), [write_data_and_label] raises [KeyError]; where
    the member of that name is a group, it raises [TypeError]; both leave
    the disk as it was; and whatever a call on an existing file does, it
    never adds a member to the file: only the absence of the file starts
    the setup. *)
Theorem write_data_and_label_missing_dataset d fp name data label file :
  plain_name name = true ->
  files d !! fp = Some (H5File file) ->
  (assoc name file = None ->
   write_data_and_label fp name data label d = (d, Raise (KeyError name)))
  ∧ (∀ ms, assoc name file = Some (Group ms) ->
     write_data_and_label fp name data label d = (d, Raise TypeError))
  ∧ (∀ d' r, write_data_and_label fp name data label d = (d', r) ->
     ∃ file', files d' !! fp = Some (H5File file') ∧ file'.*1 = file.*1).
Proof.
  intros _ Hf. unfold write_data_and_label, H5py.exists_.
  rewrite bool_decide_true by (by rewrite Hf). cbn [negb].
  unfold open_existing. rewrite Hf. split; [|split].
  - by intros ->.
  - by intros ms ->.
  - intros d' r.
    destruct (assoc name file) as [[ms|ds]|] eqn:Ea; try (intros [= <- <-]; eauto).
    destruct (write_all ds data) as [ds1|]; [|intros [= <- <-]; eauto].
    destruct (attrs_set "label" label ds1) as [ds2|]; intros [= <- <-];
      (eexists; split; [apply lookup_set_root|by apply assoc_set_keys]).
Qed.

End Write.

(** On a file that holds the dataset [x] and nothing else, a write to [y]
    raises. *)
Lemma write_data_and_label_missing_dataset_witness :
  let d := (setup_hdf5_file (H := plain_external) "f.h5" "x" [2; 3] empty_disk).1 in
  write_data_and_label (H := plain_external) "f.h5" "y" array_2_3 label_x d
  = (d, Raise (KeyError "y")).
Proof.
  intros d.
  apply (proj1 (write_data_and_label_missing_dataset (H := plain_external)
                  d "f.h5" "y" array_2_3 label_x
                  [("x", Dataset (new_dataset [2; 3] [1; 3] Float32))]
                  eq_refl ltac:(done))).
  done.
Defined.

(** C10, as the specification has it, fails where the name is that of a
    group: the file holds no dataset of that name, and what the call raises
    is no lookup error but [TypeError]. *)
Lemma write_data_and_label_missing_dataset_counterexample :
  let file := [("g", Group [])] in
  let d := set_root "f.h5" file empty_disk in
  (∀ ds, assoc "g" file ≠ Some (Dataset ds))
  ∧ write_data_and_label (H := plain_external) "f.h5" "g" array_2_3 label_x d
    = (d, Raise TypeError).
Proof. split; [done|by vm_compute]. Qed.

(** A zero-dimensional array cannot be written to a new file: the setup
    raises after it has created the file, and every later call finds the
    file without the dataset. *)
Example write_scalar_array :
  let r := write_data_and_label (H := plain_external)
             "f.h5" "x" scalar_array label_x empty_disk in
  r.2 = Raise TypeError
  ∧ files r.1 !! "f.h5" = Some (H5File [])
  ∧ (write_data_and_label (H := plain_external) "f.h5" "x" array_2_3 label_x r.1).2
    = Raise (KeyError "x").
Proof. by vm_compute. Qed.

(** ** Broadcasting *)

Lemma expand_rev_refl l : expand_rev l l = Some l.
Proof.
  induction l as [|c l IH]; simpl; [done|].
  rewrite Nat.eqb_refl, orb_true_r, IH. done.
Qed.

Lemma expand_shape_refl shape : expand_shape shape shape = Some shape.
Proof.
  unfold expand_shape. rewrite expand_rev_refl. simpl.
  by rewrite reverse_involutive.
Qed.

Lemma blocks_concat {A} n k (l : list A) :
  length l = k * n -> concat (blocks n k l) = l.
Proof.
  revert l; induction k as [|k IH]; intros l Hl; simpl in *.
  - by destruct l.
  - rewrite IH; [apply take_drop|]. rewrite length_drop. lia.
Qed.

Lemma blocks_lengths {A} n k (l : list A) :
  length l = k * n -> Forall (fun b => length b = n) (blocks n k l).
Proof.
  revert l; induction k as [|k IH]; intros l Hl; simpl in *; [constructor|].
  constructor.
  - rewrite length_take. lia.
  - apply IH. rewrite length_drop. lia.
Qed.

(** An array of the shape of the dataset is written as it is. *)
Lemma broadcast_refl {A} shape (items : list A) :
  length items = product shape -> broadcast shape shape items = items.
Proof.
  revert items; induction shape as [|c shape IH]; intros items Hl; simpl; [done|].
  rewrite Nat.eqb_refl. simpl in Hl.
  rewrite <- (blocks_concat (product shape) c items) at 2 by lia.
  f_equal. pose proof (blocks_lengths (product shape) c items ltac:(lia)) as Hb.
  induction Hb as [|b bs Hb _ IHb]; [done|].
  rewrite fmap_cons. f_equal; [by apply IH|done].
Qed.

Lemma product_positive shape : Forall (lt 0) shape -> product shape ≠ 0.
Proof.
  induction 1 as [|c shape Hc _ IH]; simpl; [done|]. nia.
Qed.

Section WriteAll.
Context `{External}.

Lemma conversion_refl dt : conversion dt dt = Some id.
Proof. unfold conversion. by rewrite bool_decide_true. Qed.

(** [dataset[...] = val] for an array of the shape of the dataset, when the
    array holds as many elements as its shape says. *)
Lemma write_all_same_shape ds val f :
  a_shape val = ds_shape ds ->
  wf_array val ->
  conversion (a_dtype val) (ds_dtype ds) = Some f ->
  write_all ds val
  = Ret (DatasetOf (ds_shape ds) (ds_chunks ds) (ds_dtype ds) (f <$> a_items val)
           (ds_attrs ds)).
Proof.
  unfold write_all, wf_array. intros Hs Hw Hc. rewrite Hs in *.
  rewrite expand_shape_refl, Hw, Nat.eqb_refl, Hc.
  cbn [negb]. by rewrite broadcast_refl by (by rewrite length_fmap).
Qed.

(** What [dataset[...] = val] leaves in a dataset. *)
Lemma write_all_contents ds val ds' :
  write_all ds val = Ret ds' ->
  ∃ eshape f,
    expand_shape (ds_shape ds) (a_shape val) = Some eshape
    ∧ length (a_items val) = product eshape
    ∧ conversion (a_dtype val) (ds_dtype ds) = Some f
    ∧ ds_data ds' = broadcast (ds_shape ds) eshape (f <$> a_items val).
Proof.
  unfold write_all. intros Hw.
  destruct (expand_shape _ _) as [eshape|]; [|done].
  destruct (length (a_items val) =? product eshape) eqn:El; [|done].
  destruct (conversion _ _) as [f|]; [|done].
  injection Hw as <-. exists eshape, f. apply Nat.eqb_eq in El. done.
Qed.

(** The first write to a path: the file is created with the dataset, which
    holds the array and the label. *)
Lemma write_fresh d fp name data label f :
  files d !! fp = None -> creatable d fp = true ->
  a_shape data ≠ [] -> Forall (lt 0) (a_shape data) -> wf_array data ->
  conversion (a_dtype data) Float32 = Some f ->
  storable (a_dtype label) = true ->
  write_data_and_label fp name data label d
  = (set_root fp
       [(name, Dataset (DatasetOf (a_shape data) (Some (1 :: tail (a_shape data)))
                          Float32 (f <$> a_items data) [("label", label)]))] d,
     Ret tt).
Proof.
  intros Hnone Hc Hne Hpos Hwf Hconv Hst. unfold write_data_and_label, H5py.exists_.
  rewrite bool_decide_false by (rewrite Hnone; by intros [? ?]). cbn [negb].
  rewrite setup_fresh by done. unfold open_existing. rewrite lookup_set_root.
  cbn [assoc]. rewrite bool_decide_true by done.
  rewrite (write_all_same_shape _ data f) by done.
  unfold attrs_set. rewrite Hst.
  cbn [new_dataset ds_shape ds_chunks ds_dtype ds_data ds_attrs].
  by rewrite assoc_set_nil, assoc_set_head, set_root_set_root.
Qed.

(** A write to a dataset that is there, of the shape of the array. *)
Lemma write_existing d fp name data label file ds f :
  files d !! fp = Some (H5File file) -> assoc name file = Some (Dataset ds) ->
  ds_shape ds = a_shape data -> wf_array data ->
  conversion (a_dtype data) (ds_dtype ds) = Some f ->
  storable (a_dtype label) = true ->
  write_data_and_label fp name data label d
  = (set_root fp
       (assoc_set name
          (Dataset (DatasetOf (ds_shape ds) (ds_chunks ds) (ds_dtype ds)
                      (f <$> a_items data) (assoc_set "label" label (ds_attrs ds))))
          file) d,
     Ret tt).
Proof.
  intros Hf Ha Hs Hwf Hconv Hst. unfold write_data_and_label, H5py.exists_.
  rewrite bool_decide_true by (by rewrite Hf). cbn [negb].
  unfold open_existing. rewrite Hf, Ha.
  rewrite (write_all_same_shape ds data f) by done.
  unfold attrs_set. by rewrite Hst.
Qed.



End WriteAll.

Section WriteEffect.
Context `{External}.

(** C5, as it holds: for a plain dataset name, an array that holds as many
    elements as its shape says and a label array of a type that an
    attribute can have.  Where there is no file and one can be created, and
    the array has a leading axis, no dimension 0 and converts to [float32],
    the call returns and leaves the file with just the dataset of that name:
    shape of the array, chunk shape [(1, *shape[1:])], type [float32], the
    elements of the array, and the attribute [label].  Where the file is
    there with a dataset of that name and of the shape of the array, to
    whose type the array converts, the call returns, the dataset holds the
    elements of the array and [label] is the label array; it keeps its
    shape, chunk shape, type and other attributes, and the file its other
    members.  Nothing else on the disk changes. *)
Theorem write_data_and_label_effect d fp name data label :
  plain_name name = true -> wf_array data -> storable (a_dtype label) = true ->
  (∀ f, files d !! fp = None -> creatable d fp = true ->
        a_shape data ≠ [] -> Forall (lt 0) (a_shape data) ->
        conversion (a_dtype data) Float32 = Some f ->
        write_data_and_label fp name data label d
        = (set_root fp
             [(name, Dataset (DatasetOf (a_shape data) (Some (1 :: tail (a_shape data)))
                                Float32 (f <$> a_items data) [("label", label)]))] d,
           Ret tt))
  ∧ (∀ file ds f,
       files d !! fp = Some (H5File file) -> assoc name file = Some (Dataset ds) ->
       ds_shape ds = a_shape data ->
       conversion (a_dtype data) (ds_dtype ds) = Some f ->
       ∃ file' attrs',
         write_data_and_label fp name data label d = (set_root fp file' d, Ret tt)
         ∧ assoc name file'
           = Some (Dataset (DatasetOf (ds_shape ds) (ds_chunks ds) (ds_dtype ds)
                              (f <$> a_items data) attrs'))
         ∧ assoc "label" attrs' = Some label
         ∧ (∀ a, a ≠ "label" -> assoc a attrs' = assoc a (ds_attrs ds))
         ∧ (∀ name', name' ≠ name -> assoc name' file' = assoc name' file)
         ∧ file'.*1 = file.*1).
Proof.
  intros _ Hwf Hst. split.
  - intros f Hnone Hc Hne Hpos Hconv. by apply write_fresh.
  - intros file ds f Hsome Ha Hs Hconv. eexists _, _.
    split; [by eapply write_existing|].
    split; [apply assoc_set_eq|]. split; [apply assoc_set_eq|].
    split; [intros a Hne; by apply assoc_set_ne|].
    split; [intros name' Hne; by apply assoc_set_ne|].
    apply assoc_set_keys. by rewrite Ha.
Qed.

End WriteEffect.

(** The first write to a path, and a second array written to the dataset
    that the first write left. *)
Lemma write_data_and_label_effect_witness :
  write_data_and_label (H := plain_external) "f.h5" "x" array_2_3 label_x empty_disk
  = (set_root "f.h5"
       [("x", Dataset (DatasetOf [2; 3] (Some [1; 3]) Float32 (a_items array_2_3)
                         [("label", label_x)]))] empty_disk,
     Ret tt)
  ∧ ∃ file' attrs',
    write_data_and_label (H := plain_external) "f.h5" "x" other_array_2_3 label_y
      disk_with_2_3
    = (set_root "f.h5" file' disk_with_2_3, Ret tt)
    ∧ assoc "x" file'
      = Some (Dataset (DatasetOf [2; 3] (Some [1; 3]) Float32
                         (a_items other_array_2_3) attrs'))
    ∧ assoc "label" attrs' = Some label_y.
Proof.
  split.
  - pose proof (proj1 (write_data_and_label_effect (H := plain_external)
                     empty_disk "f.h5" "x" array_2_3 label_x
                     eq_refl eq_refl eq_refl) id) as Hw.
    rewrite Hw; try done. repeat constructor.
  - destruct (proj2 (write_data_and_label_effect (H := plain_external)
                     disk_with_2_3 "f.h5" "x" other_array_2_3 label_y
                     eq_refl eq_refl eq_refl)
              [("x", Dataset (DatasetOf [2; 3] (Some [1; 3]) Float32
                                (a_items array_2_3) [("label", label_x)]))]
              (DatasetOf [2; 3] (Some [1; 3]) Float32 (a_items array_2_3)
                 [("label", label_x)])
              id)
    as (file' & attrs' & Hw & Ha & Hl & _); try done; try (by vm_compute).
    exists file', attrs'. by rewrite Hw, Ha, Hl.
Defined.

(** C5, as the specification has it, fails where the file is there
    without the dataset: the call raises [KeyError], nothing is written and
    no label is set. *)
Lemma write_data_and_label_effect_counterexample :
  ¬ (∀ d fp name data label,
       wf_array data ->
       ∃ d' file ds,
         write_data_and_label (H := plain_external) fp name data label d = (d', Ret tt)
         ∧ files d' !! fp = Some (H5File file)
         ∧ assoc name file = Some (Dataset ds)
         ∧ assoc "label" (ds_attrs ds) = Some label).
Proof.
  intros Hall.
  destruct (Hall disk_with_2_3 "f.h5" "y" array_2_3 label_x eq_refl)
    as (d' & file & ds & Hr & _).
  apply (f_equal snd) in Hr. vm_compute in Hr. done.
Qed.

(** What the call of the counterexample does. *)
Example write_data_and_label_effect_trace :
  write_data_and_label (H := plain_external) "f.h5" "y" array_2_3 label_x disk_with_2_3
  = (disk_with_2_3, Raise (KeyError "y")).
Proof. by vm_compute. Qed.

(** ** Writing and reading back *)

Section RoundTrip.
Context `{External}.


End RoundTrip.



(** ** Writing again *)

Section WriteAgain.
Context `{External}.






End WriteAgain.



(** What the call of the counterexample writes. *)
Example write_other_shape_trace :
  let r := write_data_and_label (H := plain_external)
             "f.h5" "x" array_3 label_y disk_with_2_3 in
  r.2 = Ret tt
  ∧ read_dataset "f.h5" "x" r.1
    = Ret (NdArray Float32 [2; 3] [Num 7; Num 8; Num 9; Num 7; Num 8; Num 9]).
Proof. by vm_compute. Qed.

(** An array of shape (3, 2) does not fit a dataset of shape (2, 3). *)
Example write_transposed_shape_refused :
  write_data_and_label (H := plain_external) "f.h5" "x"
    (NdArray Float32 [3; 2] (a_items array_2_3)) label_y disk_with_2_3
  = (disk_with_2_3, Raise TypeError).
Proof. by vm_compute. Qed.

(** An array that does not fit is refused also by a dataset without
    elements. *)
Example write_empty_dataset_refused :
  let d := set_root "e.h5" [("x", Dataset (DatasetOf [0; 3] None Float32 [] []))]
             empty_disk in
  write_data_and_label (H := plain_external) "e.h5" "x"
    (NdArray Float32 [2] [Num 1; Num 2]) label_y d
  = (d, Raise TypeError).
Proof. by vm_compute. Qed.

(** ** [print_hdf5_structure] *)

Section Printer.
Context `{External}.





Lemma print_dataset_first indent name ds :
  no_values_first (print_dataset indent name ds).1.
Proof.
  unfold print_dataset. destruct (0 <? length (ds_attrs ds)); [|done].
  by destruct (print_attrs indent (ds_attrs ds)).
Qed.


Lemma print_item_first rec indent name it :
  no_values_first (print_item rec indent name it).1.
Proof.
  destruct it as [ms|ds]; simpl.
  - by destruct (rec (Group ms) (indent + 2)).
  - apply print_dataset_first.
Qed.

Lemma print_item_nonempty rec indent name it :
  (print_item rec indent name it).1 ≠ [].
Proof.
  destruct it as [ms|ds]; simpl.
  - by destruct (rec (Group ms) (indent + 2)).
  - unfold print_dataset. destruct (0 <? length (ds_attrs ds)); [|done].
    by destruct (print_attrs indent (ds_attrs ds)).
Qed.

Lemma print_items_first rec indent ms : no_values_first (print_items rec indent ms).1.
Proof.
  destruct ms as [|[name it] rest]; simpl; [done|].
  pose proof (print_item_first rec indent name it) as Hi.
  pose proof (print_item_nonempty rec indent name it) as Hn.
  destruct (print_item rec indent name it) as [out1 [[]|e]]; [|done].
  destruct (print_items rec indent rest) as [out2 r2]. simpl in *.
  destruct out1 as [|l out1]; [done|]. intros k values. apply Hi.
Qed.

(** The lines of a member are part of the lines of the loop. *)
Lemma print_items_member rec indent ms out name it :
  print_items rec indent ms = (out, Ret tt) -> (name, it) ∈ ms ->
  ∃ pre o post,
    out = pre ++ o ++ post
    ∧ print_item rec indent name it = (o, Ret tt)
    ∧ no_values_first post.
Proof.
  revert out; induction ms as [|[n0 i0] ms IH]; intros out Hp Hin;
    [by apply elem_of_nil in Hin|].
  simpl in Hp.
  destruct (print_item rec indent n0 i0) as [out1 [[]|e]] eqn:E1; [|done].
  pose proof (print_items_first rec indent ms) as Hfirst.
  destruct (print_items rec indent ms) as [out2 r2] eqn:E2.
  injection Hp as <- ->. simpl in Hfirst.
  apply elem_of_cons in Hin as [[= -> ->]|Hin].
  - by exists [], out1, out2.
  - destruct (IH out2 eq_refl Hin) as (pre & o & post & -> & Ho & Hpost).
    exists (out1 ++ pre), o, post. by rewrite <- app_assoc.
Qed.


(** Induction on a group and the groups below it. *)
Lemma item_ind_nested (P : item -> Prop) :
  (∀ ds, P (Dataset ds)) ->
  (∀ ms, Forall (fun m => P m.2) ms -> P (Group ms)) ->
  ∀ it, P it.
Proof.
  intros HD HG.
  exact (fix rec (it : item) : P it :=
           match it with
           | Dataset ds => HD ds
           | Group ms =>
               HG ms ((fix all (l : list (string * item)) : Forall (fun m => P m.2) l :=
                         match l with
                         | [] => List.Forall_nil _
                         | (name, i) :: r =>
                             List.Forall_cons (fun m => P m.2) (name, i) r (rec i) (all r)
                         end) ms)
           end).
Qed.

Lemma print_attrs_completes indent attrs :
  Forall (fun nv => decodable nv.2) attrs -> (print_attrs indent attrs).2 = Ret tt.
Proof.
  induction 1 as [|[n v] attrs Hv _ IH]; simpl; [done|].
  destruct (print_attrs indent attrs) as [out r]. simpl in *. subst r.
  destruct (size v <? 10) eqn:Es; [|done].
  apply Nat.ltb_lt in Es. destruct (Hv Es) as [values ->]. done.
Qed.

(** The report of a group whose attributes are as the printer expects them
    is completed. *)
Lemma print_hdf5_structure_completes members indent :
  all_decodable (Group members) ->
  (print_hdf5_structure (Group members) indent).2 = Ret tt.
Proof.
  enough (Hall : ∀ it indent, all_decodable it ->
            match it with
            | Group _ => (print_hdf5_structure it indent).2 = Ret tt
            | Dataset _ => True
            end) by apply (Hall (Group members)).
  clear. induction it as [ds|ms IH] using item_ind_nested; intros indent Hd; [done|].
  inversion_clear Hd as [|? Hms]. simpl.
  enough (Hitems : (print_items print_hdf5_structure indent ms).2 = Ret tt)
    by (destruct (print_items print_hdf5_structure indent ms); done).
  induction ms as [|[name it] ms IHms]; simpl; [done|].
  apply Forall_cons in Hms as [Hit Hms]. apply Forall_cons in IH as [IHit IH].
  specialize (IHms IH Hms).
  assert (Hitem : (print_item print_hdf5_structure indent name it).2 = Ret tt).
  { destruct it as [sub|ds]; simpl.
    - specialize (IHit (indent + 2) Hit). simpl in IHit.
      destruct (print_items print_hdf5_structure (indent + 2) sub). done.
    - inversion_clear Hit as [? Hattrs|]. unfold print_dataset.
      destruct (0 <? length (ds_attrs ds)); [|done].
      pose proof (print_attrs_completes indent _ Hattrs) as Hc.
      by destruct (print_attrs indent (ds_attrs ds)). }
  destruct (print_item print_hdf5_structure indent name it) as [o1 r1].
  simpl in Hitem. subst r1.
  by destruct (print_items print_hdf5_structure indent ms).
Qed.


End Printer.




(** The report for [example_group], line by line: the values of the
    attribute with 2 elements are listed, those of the attribute with 10 are
    not. *)
Example print_hdf5_structure_example :
  print_hdf5_structure (H := plain_external) example_group 2
  = ([LTitle;
      LGroup 2 "g";
      LTitle;
      LDatasetTag 4;
      LDataset 8 "x" [2] Float32;
      LAttrTag 4;
      LAttr 8 "big" [10] (Bytes 1);
      LAttr 8 "label" [2] (Bytes 1);
      LValues 8 ["a"; "b"];
      LDatasetTag 2;
      LDataset 6 "y" [1] Float32],
     Ret tt).
Proof. by vm_compute. Qed.

(** * Further properties *)

(** ** [find_project_root] *)

Lemma below_root_not_root fuel c x : x ∈ below_root fuel c -> x ≠ Posix.dirname x.
Proof.
  revert c; induction fuel as [|fuel IH]; intros c; simpl; [by intros ?%elem_of_nil|].
  case_bool_decide as Hc; [|by intros ?%elem_of_nil].
  intros [->|Hin]%elem_of_cons; [done|]. by eapply IH.
Qed.

Lemma scan_returns_iff marker w dirs d :
  scan marker w dirs = Ret d
  <-> ∃ pre post, dirs = pre ++ d :: post
                  ∧ (∀ x, x ∈ pre -> lacks w x marker)
                  ∧ contains w d marker.
Proof.
  split.
  - induction dirs as [|c dirs IH]; simpl; [done|].
    destruct (listdir w c) as [names|] eqn:El; [|done].
    case_bool_decide as Hm.
    + intros [= ->]. exists [], dirs. split; [done|].
      split; [by intros x ?%elem_of_nil|]. by exists names.
    + intros Hs. destruct (IH Hs) as (pre & post & -> & Hpre & Hd).
      exists (c :: pre), post. split; [done|]. split; [|done].
      intros x [->|Hx]%elem_of_cons; [by exists names|auto].
  - intros (pre & post & -> & Hpre & Hd). by apply scan_nearest.
Qed.

(** X1: [find_project_root] returns [d] exactly when [d] is the first of
    the directories the walk lists, from the working directory upward and
    short of the root, that has the marker, those before it being listed
    without one; and what it returns is never the root of the file system. *)
Theorem find_project_root_returns_iff marker w d :
  (find_project_root marker w = Ret d
   <-> ∃ pre post, walked (cwd w) = pre ++ d :: post
                   ∧ (∀ x, x ∈ pre -> lacks w x marker)
                   ∧ contains w d marker)
  ∧ (find_project_root marker w = Ret d -> d ≠ Posix.dirname d).
Proof.
  rewrite find_project_root_scan. split; [apply scan_returns_iff|].
  intros (pre & post & Hw & _)%scan_returns_iff.
  apply (below_root_not_root (S (String.length (cwd w))) (cwd w)).
  fold (walked (cwd w)). rewrite Hw. apply elem_of_app. right. left.
Qed.

Lemma find_project_root_returns_iff_witness :
  find_project_root "setup.cfg" world_in_data = Ret "/proj"
  ∧ "/proj" ≠ Posix.dirname "/proj".
Proof.
  destruct (find_project_root_returns_iff "setup.cfg" world_in_data "/proj") as [Hiff Hroot].
  assert (Hr : find_project_root "setup.cfg" world_in_data = Ret "/proj").
  { apply Hiff. exists ["/proj/data"], []. split; [by vm_compute|]. split.
    - intros x ->%list_elem_of_singleton. exists []. split; [by vm_compute|].
      apply not_elem_of_nil.
    - exists ["setup.cfg"; "data"]. split; [by vm_compute|left]. }
  split; [done|by apply Hroot].
Defined.

Lemma below_root_fuel f1 f2 d :
  String.length d < f1 -> String.length d < f2 -> below_root f1 d = below_root f2 d.
Proof.
  revert f2 d; induction f1 as [|f1 IH]; intros [|f2] d H1 H2; try lia.
  simpl. case_bool_decide as Hd; [|done]. f_equal.
  pose proof (dirname_shorter d Hd). apply IH; lia.
Qed.

(** X2: the loop of [find_project_root] comes to its end within as many
    rounds as the working directory has characters, whatever the file
    system holds: with any larger bound it gives the result of
    [find_project_root]. *)
Theorem find_loop_terminates marker w fuel :
  String.length (cwd w) < fuel ->
  find_loop fuel marker w (cwd w) = Some (find_project_root marker w).
Proof.
  intros Hlt. rewrite find_loop_scan, find_project_root_scan by done.
  unfold walked. by rewrite (below_root_fuel fuel (S (String.length (cwd w)))) by lia.
Qed.

Lemma find_loop_terminates_witness :
  find_loop 100 "setup.cfg" world_in_data (cwd world_in_data) = Some (Ret "/proj").
Proof.
  rewrite (find_loop_terminates "setup.cfg" world_in_data 100); [by vm_compute|].
  vm_compute. lia.
Defined.

(** X3: the marker need not be a file: the first directory on the walk
    that has an entry of that name, of whatever kind, is what
    [find_project_root] returns; a directory called [setup.cfg] marks a
    project root too. *)
Theorem marker_of_any_kind marker w pre d post p k :
  walked (cwd w) = pre ++ d :: post ->
  (∀ x, x ∈ pre -> lacks w x marker) ->
  stat w d = Ret (p, Dir) -> nodes w !! (p ++ [marker]) = Some k ->
  find_project_root marker w = Ret d.
Proof.
  intros Hw Hpre Hs Hk. eapply find_project_root_nearest_below_root; [done..|].
  unfold contains, listdir. rewrite Hs. eexists. split; [done|].
  apply elem_of_entries. by rewrite Hk.
Qed.

Lemma marker_of_any_kind_witness :
  nodes world_marker_directory !! ["proj"; "setup.cfg"] = Some Dir
  ∧ find_project_root "setup.cfg" world_marker_directory = Ret "/proj".
Proof.
  split; [by vm_compute|].
  apply (marker_of_any_kind "setup.cfg" world_marker_directory
           ["/proj/src"] "/proj" [] ["proj"] Dir).
  - by vm_compute.
  - intros x ->%list_elem_of_singleton. exists []. split; [by vm_compute|].
    apply not_elem_of_nil.
  - by vm_compute.
  - by vm_compute.
Defined.

(** ** [datadir] and [plotsdir] *)

(** X4: where there is no repository and no directory from the working
    directory upward, short of the root, has [setup.cfg], [datadir] and
    [plotsdir] raise the not-found error of [find_project_root], whatever
    the name and the [mkdir] flag, and create nothing. *)
Theorem datadir_plotsdir_outside_project git name mk w :
  git w = Raise InvalidGitRepositoryError ∨ git w = Raise NoSuchPathError ->
  (∀ d, d ∈ walked (cwd w) -> lacks w d default_marker) ->
  datadir git name mk w = (w, Raise (FileNotFoundError (not_found_msg default_marker)))
  ∧ plotsdir git name mk w = (w, Raise (FileNotFoundError (not_found_msg default_marker))).
Proof.
  intros Hgit Hlacks.
  assert (Hroot : gitdir git w = Raise (FileNotFoundError (not_found_msg default_marker))).
  { unfold gitdir. destruct Hgit as [-> | ->];
      rewrite find_project_root_scan; by apply scan_not_found. }
  unfold datadir, plotsdir. by rewrite Hroot.
Qed.

Lemma datadir_plotsdir_outside_project_witness :
  datadir no_repository "example_directory" true world_no_marker
  = (world_no_marker, Raise (FileNotFoundError (not_found_msg "setup.cfg"))).
Proof.
  apply (datadir_plotsdir_outside_project no_repository "example_directory" true
           world_no_marker); [by left|].
  intros d Hd.
  assert (Hw : walked (cwd world_no_marker) = ["/proj/src"; "/proj"]) by (by vm_compute).
  rewrite Hw in Hd. repeat (apply elem_of_cons in Hd as [->|Hd]).
  - exists []. split; [by vm_compute|apply not_elem_of_nil].
  - exists ["src"]. split; [by vm_compute|].
    intros Hs; apply list_elem_of_singleton in Hs; done.
  - inversion Hd.
Defined.

(** X5: with [mkdir=False], [datadir] and [plotsdir] leave the file system
    as it is, and they return the path that the call with [mkdir=True]
    returns. *)
Theorem datadir_plotsdir_without_mkdir git name w :
  (datadir git name false w).1 = w
  ∧ (plotsdir git name false w).1 = w
  ∧ (∀ w1 p, datadir git name true w = (w1, Ret p) ->
             datadir git name false w = (w, Ret p))
  ∧ (∀ w1 p, plotsdir git name true w = (w1, Ret p) ->
             plotsdir git name false w = (w, Ret p)).
Proof.
  unfold datadir, plotsdir. destruct (gitdir git w) as [root|e]; [|done].
  rewrite !andb_false_r. repeat split; try done.
  - intros w1 p. destruct (_ && true).
    + destruct (makedirs _ w) as [w' [[]|]]; [|done]. by intros [= _ <-].
    + by intros [= _ <-].
  - intros w1 p. destruct (_ && true).
    + destruct (makedirs _ w) as [w' [[]|]]; [|done]. by intros [= _ <-].
    + by intros [= _ <-].
Qed.

Lemma datadir_plotsdir_without_mkdir_witness :
  datadir no_repository "example_directory" false world_fresh_project
  = (world_fresh_project, Ret "/proj/data/example_directory").
Proof.
  apply (proj1 (proj2 (proj2 (datadir_plotsdir_without_mkdir no_repository
                                "example_directory" world_fresh_project)))
           (datadir no_repository "example_directory" true world_fresh_project).1).
  by vm_compute.
Defined.

Lemma adds_directories_refl w : adds_directories w w.
Proof. split; [done|]. split; [done|]. intros k v Hs Hn. congruence. Qed.

Lemma adds_directories_trans w1 w2 w3 :
  adds_directories w1 w2 -> adds_directories w2 w3 -> adds_directories w1 w3.
Proof.
  intros (Hc1 & Hs1 & Hn1) (Hc2 & Hs2 & Hn2). split; [congruence|].
  split; [by etrans|]. intros k v H3 H1.
  destruct (nodes w2 !! k) as [v'|] eqn:E2.
  - pose proof (lookup_weaken _ _ _ _ E2 Hs2) as H3'.
    assert (v = v') as -> by congruence. by eapply Hn1.
  - by eapply Hn2.
Qed.

Lemma mkdir_adds p w w1 r : mkdir p w = (w1, r) -> adds_directories w w1.
Proof.
  unfold mkdir. intros Hm.
  assert (Hsame : ∀ e, (w, Raise e) = (w1, r) -> adds_directories w w1)
    by (intros e [= <- _]; apply adds_directories_refl).
  destruct (negb (Posix.nonempty p)); [by eapply Hsame|].
  destruct (start w p) as [d0|]; [|by eapply Hsame].
  destruct (unsnoc _) as [[parent name]|]; [|by eapply Hsame].
  destruct (walk (nodes w) d0 parent) as [[d []]|]; try (by eapply Hsame).
  destruct (_ || _); [by eapply Hsame|].
  destruct (nodes w !! (d ++ [name])) eqn:El; [by eapply Hsame|].
  injection Hm as <- _. split; [done|]. split; [by apply insert_subseteq|].
  simpl. intros k v Hk Hn. destruct (decide (d ++ [name] = k)) as [<-|Hne].
  - rewrite lookup_insert_eq in Hk. congruence.
  - rewrite lookup_insert_ne in Hk by done. congruence.
Qed.

Lemma makedirs_rec_adds fuel name w w1 r :
  makedirs_rec fuel name w = (w1, r) -> adds_directories w w1.
Proof.
  revert name w w1 r; induction fuel as [|fuel IH]; intros name w w1 r; simpl.
  - intros [= <- _]. apply adds_directories_refl.
  - destruct (split_name name) as [head tail].
    destruct (_ && _ && _); [|apply mkdir_adds].
    destruct (makedirs_rec fuel head w) as [w' r'] eqn:Er. apply IH in Er.
    assert (Hnext : (if bool_decide (tail = Posix.curdir) then (w', Ret tt)
                     else mkdir name w') = (w1, r) -> adds_directories w w1).
    { case_bool_decide; [by intros [= <- _]|].
      intros Hm%mkdir_adds. by eapply adds_directories_trans. }
    destruct r' as [[]|e]; [done|].
    destruct (is_FileExistsError e); [done|]. by intros [= <- _].
Qed.

(** X6: whatever the name and however the call ends, [datadir] and
    [plotsdir] only add directories: the working directory stays, every
    entry of the file system stays as it was, and what is new is a
    directory. *)
Theorem datadir_plotsdir_only_add_directories git name mk w :
  adds_directories w (datadir git name mk w).1
  ∧ adds_directories w (plotsdir git name mk w).1.
Proof.
  unfold datadir, plotsdir.
  destruct (gitdir git w) as [root|e]; [|split; apply adds_directories_refl].
  split.
  - destruct (_ && mk); [|apply adds_directories_refl].
    destruct (makedirs _ w) as [w' r] eqn:Em. apply makedirs_rec_adds in Em.
    by destruct r.
  - destruct (_ && mk); [|apply adds_directories_refl].
    destruct (makedirs _ w) as [w' r] eqn:Em. apply makedirs_rec_adds in Em.
    by destruct r.
Qed.

Lemma endswith_sep_app a b :
  Posix.nonempty b = true -> Posix.endswith_sep (a +:+ b) = Posix.endswith_sep b.
Proof.
  intros Hb. induction a as [|c a IH]; simpl; [done|].
  rewrite IH. destruct (a +:+ b) eqn:E; [|done].
  destruct a, b; done.
Qed.

Lemma append_cons x (a b : string) : String x a +:+ b = String x (a +:+ b).
Proof. reflexivity. Qed.

Lemma append_assoc_string (a b c : string) : (a +:+ b) +:+ c = a +:+ b +:+ c.
Proof. induction a as [|x a IH]; [done|]. by rewrite !append_cons, IH. Qed.

Lemma join_step_absolute a b : Posix.startswith_sep b = true -> Posix.join_step a b = b.
Proof. unfold Posix.join_step. by intros ->. Qed.

Lemma join_step_after_sep a b :
  Posix.startswith_sep b = false -> Posix.endswith_sep a = true ->
  Posix.join_step a b = a +:+ b.
Proof. unfold Posix.join_step. intros -> ->. by rewrite orb_true_r. Qed.

Lemma join_step_insert_sep a b :
  Posix.startswith_sep b = false -> Posix.nonempty a = true ->
  Posix.endswith_sep a = false ->
  Posix.join_step a b = a +:+ String Posix.sep b.
Proof. unfold Posix.join_step. by intros -> -> ->. Qed.

Lemma join_category root category name :
  Posix.startswith_sep category = false ->
  Posix.endswith_sep category = true ->
  (Posix.startswith_sep name = true -> Posix.join root [category; name] = name)
  ∧ (Posix.startswith_sep name = false ->
     Posix.nonempty root = true -> Posix.endswith_sep root = false ->
     Posix.join root [category; name] = root +:+ String Posix.sep category +:+ name).
Proof.
  intros Hc1 Hc2.
  change (Posix.join root [category; name])
    with (Posix.join_step (Posix.join_step root category) name).
  split.
  - apply join_step_absolute.
  - intros Hn Hr1 Hr2. rewrite (join_step_insert_sep root category) by done.
    rewrite join_step_after_sep; [apply append_assoc_string|done|].
    rewrite endswith_sep_app by done.
    destruct category as [|c category]; [done|]. exact Hc2.
Qed.

(** X7: the path that [datadir] returns: for a name that starts with a
    separator it is the name itself, project root and [data/] dropped, so
    that the directory is made outside the project; for any other name it
    is [<root>/data/<name>], the root being what [gitdir] gives (not empty
    and without a separator at its end). *)
Theorem datadir_path git name mk w w1 p :
  datadir git name mk w = (w1, Ret p) ->
  ∃ root, gitdir git w = Ret root
          ∧ (Posix.startswith_sep name = true -> p = name)
          ∧ (Posix.startswith_sep name = false ->
             Posix.nonempty root = true -> Posix.endswith_sep root = false ->
             p = root +:+ "/data/" +:+ name).
Proof.
  unfold datadir. destruct (gitdir git w) as [root|]; [|done].
  intros Hd. exists root. split; [done|].
  assert (Hp : p = Posix.join root ["data/"; name]).
  { destruct (_ && mk); [|by injection Hd as _ <-].
    destruct (makedirs _ w) as [w' [[]|]]; [|done]. by injection Hd as _ <-. }
  subst p. by apply (join_category root "data/" name).
Qed.

Lemma datadir_path_witness :
  ∃ root, gitdir no_repository world_fresh_project = Ret root
          ∧ "/proj/data/x" = root +:+ "/data/" +:+ "x".
Proof.
  destruct (datadir_path no_repository "x" false world_fresh_project
              world_fresh_project "/proj/data/x") as (root & Hr & _ & Hrel);
    [by vm_compute|].
  exists root. split; [exact Hr|].
  assert (Hroot : root = "/proj").
  { vm_compute in Hr. by injection Hr as <-. }
  apply Hrel; [reflexivity|rewrite Hroot; reflexivity..].
Defined.

(** A name that starts with a separator takes [datadir] out of the
    project: [/tmp] is made beside [/proj], with [x] in it. *)
Example datadir_absolute_name :
  let r := datadir no_repository "/tmp/x" true world_fresh_project in
  r.2 = Ret "/tmp/x"
  ∧ nodes r.1 !! ["tmp"; "x"] = Some Dir
  ∧ nodes r.1 !! ["proj"; "data"] = None.
Proof. by vm_compute. Qed.

(** ** [setup_hdf5_file] and [write_data_and_label], however they end *)

Section Frames.
Context `{External}.

Lemma set_root_creatable fp file d : creatable (set_root fp file d) = creatable d.
Proof. done. Qed.






(** X10: a call on a path where something exists that raises, with a
    label array of a type that an attribute can have, has changed
    nothing. *)
Theorem write_data_and_label_failure_changes_nothing d fp name data label d' e :
  is_Some (files d !! fp) -> storable (a_dtype label) = true ->
  write_data_and_label fp name data label d = (d', Raise e) ->
  d' = d.
Proof.
  intros Hf Hst. unfold write_data_and_label, H5py.exists_.
  rewrite bool_decide_true by done. cbn [negb].
  destruct (open_existing fp d); [|by intros [= <- _]].
  destruct (assoc name _) as [[ms|ds]|]; try (by intros [= <- _]).
  destruct (write_all ds data) as [ds1|]; [|by intros [= <- _]].
  unfold attrs_set. by rewrite Hst.
Qed.

(** X11: with a label array of text elements, which h5py cannot store,
    a write to a dataset of the shape and type of the array raises after
    the data has been written: afterwards the dataset holds the new data
    and the label it had before. *)
Theorem write_data_and_label_text_label d fp name data label file ds :
  a_dtype data = Float32 -> wf_array data -> storable (a_dtype label) = false ->
  files d !! fp = Some (H5File file) -> assoc name file = Some (Dataset ds) ->
  ds_shape ds = a_shape data -> ds_dtype ds = Float32 -> sized ds ->
  ∃ d', write_data_and_label fp name data label d = (d', Raise TypeError)
        ∧ read_dataset fp name d' = Ret data
        ∧ read_attr fp name "label" d' = read_attr fp name "label" d.
Proof.
  intros Hdt Hwf Hst Hf Ha Hs Hty Hsized.
  unfold write_data_and_label, H5py.exists_.
  rewrite bool_decide_true by (by rewrite Hf). cbn [negb].
  unfold open_existing at 1. rewrite Hf, Ha.
  assert (Hw : write_all ds data
               = Ret (DatasetOf (ds_shape ds) (ds_chunks ds) (ds_dtype ds)
                        (a_items data) (ds_attrs ds))).
  { rewrite (write_all_same_shape ds data id); try done.
    - by rewrite list_fmap_id.
    - rewrite Hdt, Hty. apply conversion_refl. }
  rewrite Hw. unfold attrs_set. rewrite Hst.
  eexists. split; [done|].
  unfold read_dataset, read_attr, open_existing. rewrite lookup_set_root, Hf, Ha.
  rewrite assoc_set_eq. simpl. split; [|done].
  unfold read_all. simpl. rewrite Hs, Hty, <- Hdt. by destruct data.
Qed.


(** X13: [setup_hdf5_file] for the shape of the array, then
    [write_data_and_label], is [write_data_and_label] alone on a path
    without a file. *)
Theorem setup_then_write d fp name data label d1 :
  files d !! fp = None ->
  setup_hdf5_file fp name (a_shape data) d = (d1, Ret tt) ->
  write_data_and_label fp name data label d1
  = write_data_and_label fp name data label d.
Proof.
  intros Hnone Hs. unfold write_data_and_label at 2. unfold H5py.exists_ at 1.
  rewrite bool_decide_false by (rewrite Hnone; by intros [? ?]). cbn [negb].
  rewrite Hs.
  apply setup_returns in Hs as (file & file' & ds & _ & -> & _).
  unfold write_data_and_label, H5py.exists_.
  by rewrite bool_decide_true by (by rewrite lookup_set_root).
Qed.

End Frames.



Lemma write_data_and_label_failure_changes_nothing_witness :
  let r := write_data_and_label (H := plain_external)
             "f.h5" "x" (NdArray Float32 [2] [Num 1; Num 2]) label_y disk_with_2_3 in
  r.2 = Raise TypeError ∧ r.1 = disk_with_2_3.
Proof.
  intros r. split; [by vm_compute|].
  apply (write_data_and_label_failure_changes_nothing (H := plain_external)
           disk_with_2_3 "f.h5" "x" (NdArray Float32 [2] [Num 1; Num 2]) label_y
           r.1 TypeError).
  - vm_compute. eauto.
  - done.
  - by vm_compute.
Defined.

Lemma write_data_and_label_text_label_witness :
  ∃ d', write_data_and_label (H := plain_external)
          "f.h5" "x" other_array_2_3 text_label disk_with_2_3 = (d', Raise TypeError)
        ∧ read_dataset "f.h5" "x" d' = Ret other_array_2_3
        ∧ read_attr "f.h5" "x" "label" d' = Ret label_x.
Proof.
  destruct (write_data_and_label_text_label (H := plain_external)
              disk_with_2_3 "f.h5" "x" other_array_2_3 text_label
              [("x", Dataset (DatasetOf [2; 3] (Some [1; 3]) Float32
                                (a_items array_2_3) [("label", label_x)]))]
              (DatasetOf [2; 3] (Some [1; 3]) Float32 (a_items array_2_3)
                 [("label", label_x)]))
    as (d' & Hw & Hd & Hl); try done; try (by vm_compute).
  exists d'. split; [exact Hw|]. split; [exact Hd|]. rewrite Hl. by vm_compute.
Defined.


Lemma setup_then_write_witness :
  let d1 := (setup_hdf5_file (H := plain_external) "f.h5" "x" [2; 3] empty_disk).1 in
  write_data_and_label (H := plain_external) "f.h5" "x" array_2_3 label_x d1
  = write_data_and_label (H := plain_external) "f.h5" "x" array_2_3 label_x empty_disk.
Proof.
  intros d1.
  apply (setup_then_write (H := plain_external) empty_disk "f.h5" "x" array_2_3 label_x d1).
  - done.
  - by vm_compute.
Defined.

(** ** The size of a dataset *)

Lemma expand_rev_dims count source e :
  expand_rev count source = Some e -> Forall2 (fun c t => t = 1 ∨ t = c) count e.
Proof.
  revert source e; induction count as [|c count IH]; intros source e; simpl.
  - destruct (forallb _ source); [|done]. intros [= <-]. constructor.
  - destruct source as [|t source].
    + destruct (expand_rev count []) as [e'|] eqn:E; [|done]. simpl.
      intros [= <-]. constructor; [by left|by eapply IH].
    + destruct ((t =? 1) || (c =? t)) eqn:Et; [|done].
      destruct (expand_rev count source) as [e'|] eqn:E; [|done]. simpl.
      intros [= <-]. constructor; [|by eapply IH].
      apply orb_true_iff in Et as [Et|Et]; apply Nat.eqb_eq in Et; auto.
Qed.

(** What h5py accepts for a write has, in every dimension, 1 or the
    dimension of the dataset. *)
Lemma expand_shape_dims count source eshape :
  expand_shape count source = Some eshape ->
  Forall2 (fun c t => t = 1 ∨ t = c) count eshape.
Proof.
  unfold expand_shape.
  destruct (expand_rev (reverse count) (reverse source)) as [e|] eqn:E; [|done].
  simpl. intros [= <-]. apply expand_rev_dims in E.
  rewrite <- (reverse_involutive count). by apply Forall2_reverse.
Qed.

Lemma length_blocks {A} n k (l : list A) : length (blocks n k l) = k.
Proof. revert l; induction k as [|k IH]; intros l; simpl; [done|]. by rewrite IH. Qed.

Lemma length_concat_fmap {A B} (f : list A -> list B) n m (bs : list (list A)) :
  Forall (fun b => length b = n) bs ->
  (∀ b, length b = n -> length (f b) = m) ->
  length (concat (f <$> bs)) = length bs * m.
Proof.
  intros Hbs Hf. induction Hbs as [|b bs Hb _ IH]; [done|].
  rewrite fmap_cons. simpl. rewrite length_app, IH, Hf by done. lia.
Qed.

Lemma length_concat_replicate {A} c (l : list A) :
  length (concat (replicate c l)) = c * length l.
Proof. induction c as [|c IH]; simpl; [done|]. rewrite length_app, IH. lia. Qed.

(** The broadcast of an array fills the dataset exactly. *)
Lemma broadcast_length {A} count eshape (items : list A) :
  Forall2 (fun c t => t = 1 ∨ t = c) count eshape ->
  length items = product eshape ->
  length (broadcast count eshape items) = product count.
Proof.
  intros Hdims. revert items.
  induction Hdims as [|c e count eshape He _ IH]; intros items Hl; simpl; [done|].
  simpl in Hl. destruct (e =? c) eqn:Ec.
  - apply Nat.eqb_eq in Ec. subst e.
    rewrite (length_concat_fmap _ (product eshape) (product count)).
    + by rewrite length_blocks.
    + apply blocks_lengths. lia.
    + apply IH.
  - apply Nat.eqb_neq in Ec. destruct He as [-> | ->]; [|done].
    rewrite length_concat_replicate, IH by lia. done.
Qed.

Section Sizes.
Context `{External}.

Lemma write_all_sized ds val ds1 : sized ds -> write_all ds val = Ret ds1 -> sized ds1.
Proof.
  unfold write_all, sized. intros Hs.
  destruct (expand_shape _ _) as [eshape|] eqn:Ee; [|done].
  destruct (length (a_items val) =? product eshape) eqn:El; [|done].
  destruct (conversion _ _) as [f|]; [|done]. intros [= <-]. simpl.
  apply broadcast_length; [by eapply expand_shape_dims|].
  rewrite length_fmap. by apply Nat.eqb_eq.
Qed.

Lemma attrs_set_sized name val ds ds1 : sized ds -> attrs_set name val ds = Ret ds1 -> sized ds1.
Proof. unfold attrs_set, sized. destruct (storable _); [|done]. by intros ? [= <-]. Qed.

Lemma new_dataset_sized shape chunks dt : sized (new_dataset shape chunks dt).
Proof. unfold sized. simpl. apply length_replicate. Qed.

Lemma set_root_sized fp file d :
  sized_disk d ->
  (∀ name ds, assoc name file = Some (Dataset ds) -> sized ds) ->
  sized_disk (set_root fp file d).
Proof.
  intros Hd Hfile fp' file' name ds Hf Ha.
  destruct (decide (fp = fp')) as [<-|Hne].
  - rewrite lookup_set_root in Hf. injection Hf as <-. by eapply Hfile.
  - rewrite lookup_set_root_ne in Hf by done. by eapply Hd.
Qed.

Lemma assoc_set_sized name dsx (file : list (string * item)) :
  sized dsx ->
  (∀ name' ds, assoc name' file = Some (Dataset ds) -> sized ds) ->
  ∀ name' ds, assoc name' (assoc_set name (Dataset dsx) file) = Some (Dataset ds) ->
              sized ds.
Proof.
  intros Hx Hfile name' ds. destruct (decide (name = name')) as [<-|Hne].
  - rewrite assoc_set_eq. by intros [= <-].
  - rewrite assoc_set_ne by done. apply Hfile.
Qed.

Lemma setup_keeps_sizes d fp name shape d' r :
  sized_disk d -> setup_hdf5_file fp name shape d = (d', r) -> sized_disk d'.
Proof.
  intros Hd. unfold setup_hdf5_file, open_append.
  assert (Hreq : ∀ file d1,
            sized_disk d1 ->
            (∀ name' ds, assoc name' file = Some (Dataset ds) -> sized ds) ->
            match require_dataset name shape (1 :: tail shape) Float32 file with
            | Ret file' => (set_root fp file' d1, Ret tt)
            | Raise e => (d1, Raise e)
            end = (d', r) -> sized_disk d').
  { intros file d1 Hd1 Hfile. unfold require_dataset.
    destruct (assoc name file) as [[ms|ds]|] eqn:Ea.
    - by intros [= <- _].
    - destruct (negb (bool_decide _)); [by intros [= <- _]|].
      destruct (negb (safe_cast _ _)); intros [= <- _]; [done|].
      by apply set_root_sized.
    - destruct (check_chunks _ _) as [[]|]; intros [= <- _]; [|done].
      apply set_root_sized; [done|].
      apply assoc_set_sized; [apply new_dataset_sized|done]. }
  destruct (files d !! fp) as [[file|]|] eqn:Ef.
  - apply Hreq; [done|]. intros name' ds. by apply (Hd fp file).
  - by intros [= <- _].
  - destruct (creatable d fp); [|by intros [= <- _]].
    apply Hreq; [|done]. by apply set_root_sized.
Qed.

(** X14: the calls keep the size of the datasets: when every dataset of
    the disk holds as many elements as its shape says, it is so again after
    [setup_hdf5_file] and after [write_data_and_label], however they end and
    whatever the shape of the array written (a write fills the dataset
    exactly, also when it broadcasts). *)
Theorem write_data_and_label_keeps_sizes d fp name shape data label :
  sized_disk d ->
  sized_disk (setup_hdf5_file fp name shape d).1
  ∧ sized_disk (write_data_and_label fp name data label d).1.
Proof.
  intros Hd. split.
  - destruct (setup_hdf5_file fp name shape d) as [d' r] eqn:Es.
    by eapply setup_keeps_sizes.
  - unfold write_data_and_label.
    assert (Hrest : ∀ d1, sized_disk d1 ->
              sized_disk
                (match open_existing fp d1 with
                 | Ret file =>
                     match assoc name file with
                     | Some (Group _) => (d1, Raise TypeError)
                     | Some (Dataset dataset) =>
                         match write_all dataset data with
                         | Ret dataset1 =>
                             match attrs_set "label" label dataset1 with
                             | Ret dataset2 =>
                                 (set_root fp (assoc_set name (Dataset dataset2) file) d1,
                                  Ret tt)
                             | Raise e =>
                                 (set_root fp (assoc_set name (Dataset dataset1) file) d1,
                                  Raise e)
                             end
                         | Raise e => (d1, Raise e)
                         end
                     | None => (d1, Raise (KeyError name))
                     end
                 | Raise e => (d1, Raise e)
                 end).1).
    { intros d1 Hd1. unfold open_existing.
      destruct (files d1 !! fp) as [[file|]|] eqn:Ef; try done.
      destruct (assoc name file) as [[ms|ds]|] eqn:Ea; try done.
      pose proof (Hd1 fp file name ds Ef Ea) as Hds.
      destruct (write_all ds data) as [ds1|] eqn:Ew; [|done].
      pose proof (write_all_sized _ _ _ Hds Ew) as Hds1.
      assert (Hfile : ∀ name' ds', assoc name' file = Some (Dataset ds') -> sized ds')
        by (intros name' ds'; by apply (Hd1 fp file)).
      destruct (attrs_set "label" label ds1) as [ds2|] eqn:Ea2; simpl.
      - apply set_root_sized; [done|]. apply assoc_set_sized; [|done].
        by eapply attrs_set_sized.
      - apply set_root_sized; [done|]. by apply assoc_set_sized. }
    destruct (negb (H5py.exists_ d fp)); [|by apply Hrest].
    destruct (setup_hdf5_file fp name (a_shape data) d) as [d1 [[]|e]] eqn:Es.
    + apply Hrest. by eapply setup_keeps_sizes.
    + simpl. by eapply setup_keeps_sizes.
Qed.

End Sizes.

Lemma write_data_and_label_keeps_sizes_witness :
  sized_disk (setup_hdf5_file (H := plain_external) "f.h5" "x" [2; 3] empty_disk).1
  ∧ sized_disk disk_with_2_3.
Proof.
  apply (write_data_and_label_keeps_sizes (H := plain_external)
           empty_disk "f.h5" "x" [2; 3] array_2_3 label_x).
  intros fp file name ds Hf. unfold empty_disk in Hf. simpl in Hf.
  by rewrite lookup_empty in Hf.
Defined.

(** ** Writing one value *)

Lemma expand_rev_nil count : expand_rev count [] = Some (replicate (length count) 1).
Proof. induction count as [|c count IH]; simpl; [done|]. by rewrite IH. Qed.

Lemma expand_shape_nil count : expand_shape count [] = Some (replicate (length count) 1).
Proof.
  unfold expand_shape. rewrite reverse_nil, expand_rev_nil. simpl.
  by rewrite length_reverse, reverse_replicate.
Qed.

Lemma product_ones n : product (replicate n 1) = 1.
Proof. induction n as [|n IH]; simpl; [done|]. rewrite IH. done. Qed.

Lemma concat_replicate_replicate {A} c n (y : A) :
  concat (replicate c (replicate n y)) = replicate (c * n) y.
Proof. induction c as [|c IH]; simpl; [done|]. by rewrite IH, replicate_add. Qed.

(** One value, broadcast, fills the shape with that value. *)
Lemma broadcast_one {A} count (y : A) :
  broadcast count (replicate (length count) 1) [y] = replicate (product count) y.
Proof.
  induction count as [|c count IH]; simpl; [done|].
  destruct c as [|[|c]].
  - done.
  - rewrite product_ones. simpl. rewrite IH, app_nil_r. f_equal. lia.
  - by rewrite IH, concat_replicate_replicate.
Qed.

Section OneValue.
Context `{External}.

(** X15: a zero-dimensional array written to a dataset that is there and
    has elements fills the whole dataset with its one value, converted to
    the type of the dataset; the call returns although the shapes
    differ. *)
Theorem write_data_and_label_scalar_fills d fp name dt x label file ds f :
  files d !! fp = Some (H5File file) -> assoc name file = Some (Dataset ds) ->
  product (ds_shape ds) ≠ 0 ->
  conversion dt (ds_dtype ds) = Some f ->
  storable (a_dtype label) = true ->
  ∃ d', write_data_and_label fp name (NdArray dt [] [x]) label d = (d', Ret tt)
        ∧ read_dataset fp name d'
          = Ret (NdArray (ds_dtype ds) (ds_shape ds)
                   (replicate (product (ds_shape ds)) (f x))).
Proof.
  intros Hf Ha Hp Hc Hst. unfold write_data_and_label, H5py.exists_.
  rewrite bool_decide_true by (by rewrite Hf). cbn [negb].
  unfold open_existing at 1. rewrite Hf, Ha.
  unfold write_all. simpl a_shape.
  rewrite expand_shape_nil, product_ones. simpl. rewrite Hc.
  unfold attrs_set. rewrite Hst. simpl. eexists. split; [done|].
  unfold read_dataset, open_existing. rewrite lookup_set_root, assoc_set_eq.
  unfold read_all. simpl. by rewrite broadcast_one.
Qed.

End OneValue.

Lemma write_data_and_label_scalar_fills_witness :
  ∃ d', write_data_and_label (H := plain_external) "f.h5" "x" scalar_array label_y
          disk_with_2_3 = (d', Ret tt)
        ∧ read_dataset "f.h5" "x" d'
          = Ret (NdArray Float32 [2; 3] (replicate 6 (Num 1056964608))).
Proof.
  apply (write_data_and_label_scalar_fills (H := plain_external) disk_with_2_3 "f.h5" "x"
           Float32 (Num 1056964608) label_y
           [("x", Dataset (DatasetOf [2; 3] (Some [1; 3]) Float32
                             (a_items array_2_3) [("label", label_x)]))]
           (DatasetOf [2; 3] (Some [1; 3]) Float32 (a_items array_2_3) [("label", label_x)])
           id); try done; by vm_compute.
Defined.

(** ** The report of [print_hdf5_structure] *)

Section Report.
Context `{External}.

Lemma print_dataset_head indent name ds out r :
  print_dataset indent name ds = (out, r) ->
  ∃ rest, out = LDatasetTag indent
                :: LDataset (indent + 4) name (ds_shape ds) (ds_dtype ds) :: rest.
Proof.
  unfold print_dataset. destruct (0 <? length (ds_attrs ds)).
  - destruct (print_attrs indent (ds_attrs ds)) as [o r']. intros [= <- _]. eauto.
  - intros [= <- _]. eauto.
Qed.

(** X16: a completed report lists every member of the group, at any depth:
    a dataset by the line [dataset:] and, on the next line, its name, shape
    and element type; a group by its name, and the title again on the next
    line. *)
Theorem print_hdf5_structure_lists_members group indent out name it k :
  print_hdf5_structure group indent = (out, Ret tt) ->
  printed_member group indent name it k ->
  ∃ pre post,
    out = pre ++ match it with
                 | Dataset ds =>
                     LDatasetTag k
                     :: LDataset (k + 4) name (ds_shape ds) (ds_dtype ds) :: post
                 | Group _ => LGroup k name :: LTitle :: post
                 end.
Proof.
  intros Hp Hm. revert out Hp.
  induction Hm as [members indent name it Hin
                  |members indent gname sub name it k Hin Hm IH]; intros out Hp;
    simpl in Hp;
    destruct (print_items print_hdf5_structure indent members) as [out' r'] eqn:Ep;
    injection Hp as <- ->;
    destruct (print_items_member _ _ _ _ _ _ Ep Hin) as (pre & o & post & -> & Ho & _).
  - destruct it as [ms|ds].
    + cbn [print_item] in Ho.
      destruct (print_hdf5_structure (Group ms) (indent + 2)) as [o' ro] eqn:Es.
      injection Ho as <- ->. simpl in Es.
      destruct (print_items print_hdf5_structure (indent + 2) ms) as [o'' r''].
      injection Es as <- _.
      exists (LTitle :: pre), (o'' ++ post). reflexivity.
    + simpl in Ho. apply print_dataset_head in Ho as [rest ->].
      exists (LTitle :: pre), (rest ++ post). reflexivity.
  - cbn [print_item] in Ho.
    destruct (print_hdf5_structure (Group sub) (indent + 2)) as [o' ro] eqn:Es.
    injection Ho as <- ->.
    destruct (IH o' eq_refl) as (pre' & post' & ->).
    exists (LTitle :: pre ++ LGroup indent gname :: pre').
    destruct it as [ms|ds]; eexists; simpl; rewrite <- ?app_assoc; simpl;
      rewrite <- ?app_assoc; reflexivity.
Qed.

Lemma print_attrs_no_title indent attrs :
  List.filter is_title (print_attrs indent attrs).1 = [].
Proof.
  induction attrs as [|[n v] attrs IH]; simpl; [done|].
  destruct (print_attrs indent attrs) as [o r]. simpl in IH.
  destruct (size v <? 10); [|done].
  by destruct (decode_values v).
Qed.

Lemma print_dataset_no_title indent name ds :
  List.filter is_title (print_dataset indent name ds).1 = [].
Proof.
  unfold print_dataset. destruct (0 <? length (ds_attrs ds)); [|done].
  pose proof (print_attrs_no_title indent (ds_attrs ds)) as Ha.
  by destruct (print_attrs indent (ds_attrs ds)).
Qed.

(** X17: the title line is printed once for the group and once more for
    every group below it: a completed report has as many title lines as
    there are groups. *)
Theorem print_hdf5_structure_titles members indent out :
  print_hdf5_structure (Group members) indent = (out, Ret tt) ->
  length (List.filter is_title out) = groups (Group members).
Proof.
  enough (Hall : ∀ it indent out,
            print_hdf5_structure it indent = (out, Ret tt) ->
            length (List.filter is_title out) = groups it) by apply Hall.
  clear. induction it as [ds|ms IH] using item_ind_nested; intros indent out; [done|].
  simpl. destruct (print_items print_hdf5_structure indent ms) as [o r] eqn:Ep.
  intros [= <- ->]. simpl. f_equal. revert o Ep.
  induction ms as [|[name it] ms IHms]; intros o; simpl; [by intros [= <-]|].
  apply Forall_cons in IH as [IHit IH]. specialize (IHms IH).
  destruct (print_item print_hdf5_structure indent name it) as [o1 [[]|e]] eqn:E1; [|done].
  destruct (print_items print_hdf5_structure indent ms) as [o2 r2].
  intros [= <- ->]. rewrite List.filter_app, length_app, (IHms o2 eq_refl). f_equal.
  destruct it as [sub|ds]; cbn [print_item] in E1.
  - destruct (print_hdf5_structure (Group sub) (indent + 2)) as [o' ro] eqn:Es.
    injection E1 as <- ->. simpl List.filter. by apply (IHit (indent + 2)).
  - pose proof (print_dataset_no_title indent name ds) as Hd.
    rewrite E1 in Hd. simpl in Hd. by rewrite Hd.
Qed.

Lemma print_attrs_returns indent attrs :
  (print_attrs indent attrs).2 = Ret tt -> Forall (fun nv => decodable nv.2) attrs.
Proof.
  induction attrs as [|[n v] attrs IH]; simpl; [constructor|].
  destruct (print_attrs indent attrs) as [o r]. simpl in IH.
  destruct (size v <? 10) eqn:Es.
  - destruct (decode_values v) as [values|] eqn:Ed; [|done]. simpl.
    intros ->. constructor; [|by apply IH]. intros _. by exists values.
  - simpl. intros ->. constructor; [|by apply IH].
    intros Hlt. apply Nat.ltb_ge in Es. simpl in Hlt. lia.
Qed.

Lemma print_items_returns rec indent ms :
  (print_items rec indent ms).2 = Ret tt ->
  Forall (fun m => (print_item rec indent m.1 m.2).2 = Ret tt) ms.
Proof.
  induction ms as [|[name it] ms IH]; simpl; [constructor|].
  destruct (print_item rec indent name it) as [o1 [[]|e]] eqn:E1; [|done].
  destruct (print_items rec indent ms) as [o2 r2]. cbn [fst snd] in *.
  intros ->. constructor; [|by apply IH].
  change ((print_item rec indent name it).2 = Ret tt). by rewrite E1.
Qed.

(** X18: the report of a group whose attributes are arrays is completed
    exactly when every attribute with fewer than 10 elements, of every
    dataset at any depth, can be iterated and decoded.  (An attribute that
    is a single byte string is left out: h5py hands it out as a [bytes]
    object, whose iteration gives numbers and not what [decode_values]
    says.) *)
Theorem print_hdf5_structure_completes_iff members indent :
  array_attributes (Group members) = true ->
  (print_hdf5_structure (Group members) indent).2 = Ret tt
  <-> all_decodable (Group members).
Proof.
  intros _. split; [|apply print_hdf5_structure_completes].
  enough (Hall : ∀ it indent name,
            (print_item print_hdf5_structure indent name it).2 = Ret tt ->
            all_decodable it).
  { intros Hr. constructor. simpl in Hr.
    destruct (print_items print_hdf5_structure indent members) as [o r] eqn:E.
    simpl in Hr. subst r. apply (f_equal snd) in E. simpl in E.
    apply print_items_returns in E.
    eapply Forall_impl; [exact E|]. intros [n i] Hi. by eapply Hall. }
  clear. induction it as [ds|ms IH] using item_ind_nested; intros indent name Hr.
  - constructor. simpl in Hr. unfold print_dataset in Hr.
    destruct (0 <? length (ds_attrs ds)) eqn:El.
    + apply (print_attrs_returns indent).
      by destruct (print_attrs indent (ds_attrs ds)).
    + apply Nat.ltb_ge in El. destruct (ds_attrs ds); [constructor|simpl in El; lia].
  - constructor. cbn [print_item] in Hr.
    destruct (print_hdf5_structure (Group ms) (indent + 2)) as [o r] eqn:E.
    simpl in Hr. subst r. simpl in E.
    destruct (print_items print_hdf5_structure (indent + 2) ms) as [o1 r1] eqn:E1.
    injection E as _ ->. apply (f_equal snd) in E1. simpl in E1.
    apply print_items_returns in E1.
    induction ms as [|[n i] ms IHms]; [constructor|].
    apply Forall_cons in IH as [IHi IH]. apply Forall_cons in E1 as [Hi E1].
    constructor; [by eapply IHi|by apply IHms].
Qed.

Lemma print_attrs_raises indent attrs out e :
  print_attrs indent attrs = (out, Raise e) ->
  ∃ pre n v,
    (n, v) ∈ attrs
    ∧ out = pre ++ [LAttr (indent + 4) n (a_shape v) (a_dtype v)]
    ∧ size v < 10 ∧ decode_values v = Raise e.
Proof.
  revert out. induction attrs as [|[n v] attrs IH]; intros out; simpl; [done|].
  destruct (size v <? 10) eqn:Es.
  - destruct (decode_values v) as [values|e'] eqn:Ed.
    + destruct (print_attrs indent attrs) as [o r]. intros [= <- ->].
      destruct (IH o eq_refl) as (pre & n' & v' & Hin & -> & Hlt & Hd).
      exists (LAttr (indent + 4) n (a_shape v) (a_dtype v)
              :: LValues (indent + 4) values :: pre), n', v'.
      split; [by right|]. done.
    + intros [= <- <-]. exists [], n, v. split; [left|].
      split; [done|]. split; [by apply Nat.ltb_lt|done].
  - destruct (print_attrs indent attrs) as [o r]. intros [= <- ->].
    destruct (IH o eq_refl) as (pre & n' & v' & Hin & -> & Hlt & Hd).
    exists (LAttr (indent + 4) n (a_shape v) (a_dtype v) :: pre), n', v'.
    split; [by right|]. done.
Qed.

Lemma print_items_raises rec indent ms out e :
  print_items rec indent ms = (out, Raise e) ->
  ∃ pre name it o,
    (name, it) ∈ ms ∧ print_item rec indent name it = (o, Raise e) ∧ out = pre ++ o.
Proof.
  revert out. induction ms as [|[n0 i0] ms IH]; intros out; simpl; [done|].
  destruct (print_item rec indent n0 i0) as [out1 [[]|e1]] eqn:E1.
  - destruct (print_items rec indent ms) as [out2 r2]. intros [= <- ->].
    destruct (IH out2 eq_refl) as (pre & name & it & o & Hin & Ho & ->).
    exists (out1 ++ pre), name, it, o. split; [by right|]. split; [done|].
    by rewrite <- app_assoc.
  - intros [= <- <-]. exists [], n0, i0, out1. split; [left|]. done.
Qed.

(** X20: a report of a group whose attributes are arrays that is not
    completed stops at an attribute: its last line is the header of an
    attribute with fewer than 10 elements, of a dataset of the group at some
    depth, whose values cannot be iterated and decoded; the exception is the
    one the decoding raises. *)
Theorem print_hdf5_structure_stops members indent out e :
  array_attributes (Group members) = true ->
  print_hdf5_structure (Group members) indent = (out, Raise e) ->
  ∃ pre ds k n v,
    printed_dataset (Group members) indent ds k
    ∧ (n, v) ∈ ds_attrs ds
    ∧ out = pre ++ [LAttr (k + 4) n (a_shape v) (a_dtype v)]
    ∧ size v < 10 ∧ decode_values v = Raise e.
Proof.
  enough (Hall : ∀ it ms, it = Group ms -> ∀ indent out,
            print_hdf5_structure (Group ms) indent = (out, Raise e) ->
            ∃ pre ds k n v,
              printed_dataset (Group ms) indent ds k
              ∧ (n, v) ∈ ds_attrs ds
              ∧ out = pre ++ [LAttr (k + 4) n (a_shape v) (a_dtype v)]
              ∧ size v < 10 ∧ decode_values v = Raise e)
    by (intros _; by eapply Hall).
  clear. induction it as [ds|ms' IH] using item_ind_nested; intros ms [= <-] indent out.
  simpl. destruct (print_items print_hdf5_structure indent ms') as [o r] eqn:Ep.
  intros [= <- ->].
  apply print_items_raises in Ep as (pre & name & it & o' & Hin & Ho & ->).
  rewrite Forall_forall in IH. specialize (IH _ Hin). simpl in IH.
  destruct it as [sub|ds]; cbn [print_item] in Ho.
  - destruct (print_hdf5_structure (Group sub) (indent + 2)) as [o2 r2] eqn:Es.
    injection Ho as <- ->.
    destruct (IH sub eq_refl _ _ Es) as (pre' & ds & k & n & v & Hp & Ha & -> & Hlt & Hd).
    exists (LTitle :: pre ++ LGroup indent name :: pre'), ds, k, n, v.
    split; [by eapply printed_below|]. split; [done|]. split; [|done].
    simpl. by rewrite <- app_assoc.
  - unfold print_dataset in Ho. destruct (0 <? length (ds_attrs ds)); [|done].
    destruct (print_attrs indent (ds_attrs ds)) as [o2 r2] eqn:Ea.
    injection Ho as <- ->.
    apply print_attrs_raises in Ea as (pre' & n & v & Ha & -> & Hlt & Hd).
    exists (LTitle :: pre ++ LDatasetTag indent
                             :: LDataset (indent + 4) name (ds_shape ds) (ds_dtype ds)
                             :: LAttrTag indent :: pre'), ds, indent, n, v.
    split; [by eapply printed_here|]. split; [done|]. split; [|done].
    simpl. by rewrite <- app_assoc.
Qed.

End Report.

Lemma print_hdf5_structure_lists_members_witness :
  ∃ pre post,
    (print_hdf5_structure (H := plain_external) example_group 2).1
    = pre ++ LDatasetTag 4 :: LDataset 8 "x" [2] Float32 :: post.
Proof.
  apply (print_hdf5_structure_lists_members (H := plain_external)
           example_group 2
           (print_hdf5_structure (H := plain_external) example_group 2).1
           "x" (Dataset labelled_dataset) 4).
  - by vm_compute.
  - eapply printed_member_below; [left|]. apply printed_member_here. left.
Defined.

Lemma print_hdf5_structure_titles_witness :
  length (List.filter is_title (print_hdf5_structure (H := plain_external) example_group 2).1)
  = 2.
Proof.
  apply (print_hdf5_structure_titles (H := plain_external)
           [("g", Group [("x", Dataset labelled_dataset)]);
            ("y", Dataset (new_dataset [1] [1] Float32))] 2).
  by vm_compute.
Defined.

Lemma print_hdf5_structure_stops_witness :
  ∃ pre ds k n v,
    printed_dataset scaled_group 2 ds k
    ∧ (n, v) ∈ ds_attrs ds
    ∧ (print_hdf5_structure (H := plain_external) scaled_group 2).1
      = pre ++ [LAttr (k + 4) n (a_shape v) (a_dtype v)]
    ∧ size v < 10 ∧ decode_values (H := plain_external) v = Raise AttributeError.
Proof.
  apply (print_hdf5_structure_stops (H := plain_external)
           [("a", Dataset (new_dataset [1] [1] Float32));
            ("g", Group [("x", Dataset scaled_dataset)]);
            ("z", Dataset (new_dataset [1] [1] Float32))] 2
           (print_hdf5_structure (H := plain_external) scaled_group 2).1
           AttributeError).
  - reflexivity.
  - by vm_compute.
Defined.

Lemma print_hdf5_structure_completes_iff_witness :
  all_decodable (H := plain_external) example_group.
Proof.
  apply (proj1 (print_hdf5_structure_completes_iff (H := plain_external)
                  [("g", Group [("x", Dataset labelled_dataset)]);
                   ("y", Dataset (new_dataset [1] [1] Float32))] 2 eq_refl)).
  by vm_compute.
Defined.


(** ** Writing an array without the leading axis *)

Lemma expand_rev_leading l c : expand_rev (l ++ [c]) l = Some (l ++ [1]).
Proof.
  induction l as [|t l IH]; simpl; [done|].
  by rewrite Nat.eqb_refl, orb_true_r, IH.
Qed.

Lemma expand_shape_leading c shape : expand_shape (c :: shape) shape = Some (1 :: shape).
Proof.
  unfold expand_shape. rewrite reverse_cons, expand_rev_leading. simpl.
  by rewrite reverse_snoc, reverse_involutive.
Qed.

(** An array without the leading axis, broadcast, is repeated once for each
    index of that axis. *)
Lemma broadcast_rows {A} c shape (items : list A) :
  length items = product shape ->
  broadcast (c :: shape) (1 :: shape) items = concat (replicate c items).
Proof.
  intros Hl. cbn [broadcast]. destruct c as [|[|c]].
  - done.
  - cbn. rewrite !app_nil_r, take_ge by lia. by apply broadcast_refl.
  - cbn [Nat.eqb]. by rewrite broadcast_refl.
Qed.

Section Rows.
Context `{External}.

(** X21: an array that lacks the leading axis of a dataset that is there
    and has elements is written once for each index of that axis: the call
    returns, and the dataset holds the array, converted to its type, as many
    times as its first dimension says. *)
Theorem write_data_and_label_fills_rows d fp name data label file ds c f :
  files d !! fp = Some (H5File file) -> assoc name file = Some (Dataset ds) ->
  ds_shape ds = c :: a_shape data -> wf_array data ->
  product (ds_shape ds) ≠ 0 ->
  conversion (a_dtype data) (ds_dtype ds) = Some f ->
  storable (a_dtype label) = true ->
  ∃ d', write_data_and_label fp name data label d = (d', Ret tt)
        ∧ read_dataset fp name d'
          = Ret (NdArray (ds_dtype ds) (ds_shape ds)
                   (concat (replicate c (f <$> a_items data)))).
Proof.
  intros Hf Ha Hs Hwf Hp Hc Hst. unfold write_data_and_label, H5py.exists_.
  rewrite bool_decide_true by (by rewrite Hf). cbn [negb].
  unfold open_existing at 1. rewrite Hf, Ha.
  unfold write_all.
  rewrite Hs, expand_shape_leading.
  unfold wf_array in Hwf.
  replace (length (a_items data) =? product (1 :: a_shape data)) with true
    by (symmetry; apply Nat.eqb_eq; simpl; lia).
  cbn [negb]. rewrite Hc.
  unfold attrs_set. rewrite Hst. cbn [ds_shape ds_chunks ds_dtype ds_data ds_attrs].
  eexists. split; [done|].
  unfold read_dataset, open_existing. rewrite lookup_set_root, assoc_set_eq.
  unfold read_all. cbn [ds_shape ds_chunks ds_dtype ds_data ds_attrs].
  do 2 f_equal. apply broadcast_rows. by rewrite length_fmap.
Qed.

End Rows.

Lemma write_data_and_label_fills_rows_witness :
  ∃ d', write_data_and_label (H := plain_external) "f.h5" "x" array_3 label_y
          disk_with_2_3 = (d', Ret tt)
        ∧ read_dataset "f.h5" "x" d'
          = Ret (NdArray Float32 [2; 3] [Num 7; Num 8; Num 9; Num 7; Num 8; Num 9]).
Proof.
  apply (write_data_and_label_fills_rows (H := plain_external) disk_with_2_3 "f.h5" "x"
           array_3 label_y
           [("x", Dataset (DatasetOf [2; 3] (Some [1; 3]) Float32
                             (a_items array_2_3) [("label", label_x)]))]
           (DatasetOf [2; 3] (Some [1; 3]) Float32 (a_items array_2_3) [("label", label_x)])
           2 id); try done; by vm_compute.
Defined.

(** ** [main] *)

Section Main.
Context `{External}.

(** X22: [main] where the file is not there yet and can be created: it
    returns, leaves the file with the one dataset, which holds the array
    drawn and the 10 labels, and prints five lines: the title, the dataset
    with its shape and type, and its attribute [label] with shape and type;
    no line of values, the labels being 10 and not fewer.  Run again, it
    replaces the array by the new one and prints the same. *)
Theorem main_report git random random' w d w1 dir :
  datadir git "example_directory" true w = (w1, Ret dir) ->
  files d !! Posix.join dir ["example.h5"] = None ->
  creatable d (Posix.join dir ["example.h5"]) = true ->
  length random = product [10; 3; 256; 256] ->
  main git random w d
  = (w1, set_root (Posix.join dir ["example.h5"]) (main_file random) d,
     (main_lines, Ret tt))
  ∧ (datadir git "example_directory" true w1 = (w1, Ret dir) ->
     length random' = product [10; 3; 256; 256] ->
     main git random' w1 (set_root (Posix.join dir ["example.h5"]) (main_file random) d)
     = (w1, set_root (Posix.join dir ["example.h5"]) (main_file random') d,
        (main_lines, Ret tt))).
Proof.
  intros Hdir Hnone Hc Hlen.
  set (fp := Posix.join dir ["example.h5"]) in *.
  assert (Hpos : Forall (lt 0) [10; 3; 256; 256])
    by (repeat (constructor; [lia|]); constructor).
  split.
  - unfold main. rewrite Hdir. fold fp.
    rewrite (write_fresh d fp "example_dataset" (NdArray Float32 [10; 3; 256; 256] random)
               main_label id); try done.
    cbn [a_shape a_items tail]. rewrite list_fmap_id.
    unfold open_existing. rewrite lookup_set_root. reflexivity.
  - intros Hdir' Hlen'. unfold main. rewrite Hdir'. fold fp.
    rewrite (write_existing _ fp "example_dataset"
               (NdArray Float32 [10; 3; 256; 256] random') main_label (main_file random)
               (DatasetOf [10; 3; 256; 256] (Some [1; 3; 256; 256]) Float32 random
                  [("label", main_label)]) id); try done.
    + cbn [a_shape a_items ds_shape ds_chunks ds_dtype ds_attrs main_file].
      rewrite !assoc_set_head, list_fmap_id, set_root_set_root.
      unfold open_existing. rewrite lookup_set_root. reflexivity.
    + apply lookup_set_root.
Qed.

End Main.

Lemma main_report_witness :
  (main (H := plain_external) no_repository
     (replicate (product [10; 3; 256; 256]) (Num 0)) world_fresh_project empty_disk).2
  = (main_lines, Ret tt).
Proof.
  destruct (main_report (H := plain_external) no_repository
              (replicate (product [10; 3; 256; 256]) (Num 0))
              (replicate (product [10; 3; 256; 256]) (Num 0))
              world_fresh_project empty_disk
              (datadir no_repository "example_directory" true world_fresh_project).1
              "/proj/data/example_directory") as [Hfirst _].
  - by vm_compute.
  - by vm_compute.
  - done.
  - apply length_replicate.
  - by rewrite Hfirst.
Defined.
